(** * Legal Document Analysis front end ([streamlit-ui.py])

    A shallow embedding of the PDF text extractor, the backend resolution
    and the two analysis actions of [streamlit-ui.py], with the properties
    of the specification stated and proved about it.

    Python values are modelled as the script uses them: a [str] is a
    sequence of Unicode code points, a fault is a raised [Exception]
    carrying its message, and the third-party libraries (PyPDF2, pdf2image,
    pytesseract, transformers, the optional [code/analysis.py]) are the
    fields of a [World] record that says how each of their calls answers.
    Every library call is logged, so that "is never attempted" is a
    statement about the log. *)

From Stdlib Require Import String Ascii NArith Lia.
From stdpp Require Import gmap list.

Set Warnings "-register-all".

(** ** Python strings *)

Module PyStr.

(** A Python [str]: a sequence of code points. [len] and slicing count code
    points, which is what the chunking of the summarizer relies on. *)
Definition str : Type := list N.

(** A [bytes] object. *)
Definition bytes : Type := list Byte.byte.

(** A string literal of the script (all of them are ASCII). *)
Definition lit (s : String.string) : str :=
  map Ascii.N_of_ascii (String.list_ascii_of_string s).
Arguments lit s%_string.

(** The line feed of ["\n"]. *)
Definition nl : str := [10%N].

(** [str.isspace] on one code point: CPython's [_PyUnicode_IsWhitespace]. *)
Definition isspace (c : N) : bool :=
  ((9 <=? c) && (c <=? 13) || (28 <=? c) && (c <=? 32)
   || (c =? 133) || (c =? 160) || (c =? 5760)
   || (8192 <=? c) && (c <=? 8202)
   || (c =? 8232) || (c =? 8233) || (c =? 8239) || (c =? 8287)
   || (c =? 12288))%N.

(** [s.lstrip()] *)
Fixpoint lstrip (s : str) : str :=
  match s with
  | [] => []
  | c :: rest => if isspace c then lstrip rest else s
  end.

(** [s.rstrip()] *)
Definition rstrip (s : str) : str := rev (lstrip (rev s)).

(** [s.strip()] *)
Definition strip (s : str) : str := rstrip (lstrip s).

(** [sep.join(items)] on a list of [str]. *)
Fixpoint join (sep : str) (items : list str) : str :=
  match items with
  | [] => []
  | [x] => x
  | x :: rest => x ++ sep ++ join sep rest
  end.

(** [s[i:j]] for [0 <= i <= j]: out-of-range bounds are clamped. *)
Definition slice (s : str) (i j : nat) : str := take (j - i) (drop i s).

(** [range(start, stop, step)] for a positive [step], with the length that
    CPython computes for it. *)
Definition range (start stop step : nat) : list nat :=
  map (fun k => start + k * step) (seq 0 ((stop - start + (step - 1)) / step)).

(** A string with no whitespace at either end. *)
Definition trimmed (s : str) : Prop :=
  forall c, head s = Some c \/ last s = Some c -> isspace c = false.

(** A string made of whitespace only (the empty string included). *)
Definition blank (s : str) : Prop := Forall (fun c => isspace c = true) s.

End PyStr.
Export PyStr.

(** ** Faults, results and the log of library calls *)

(** A raised exception: an instance of Python's [Exception], with its class
    name and [str(e)]. Signals outside [Exception] (a keyboard interrupt,
    an interpreter exit) are not faults of the libraries and are not
    modelled. *)
Record exn : Type := Exception { exn_class : String.string; exn_str : str }.

Inductive result (A : Type) : Type :=
| Ret (a : A)
| Raise (e : exn).
Arguments Ret {A} a.
Arguments Raise {A} e.

(** Python objects, as far as the script looks into them. *)
Inductive pyobj : Type :=
| PNone
| PStr (s : str)
| PList (items : list pyobj)
| PDict (d : gmap str pyobj)
| PFunction (f : str -> result pyobj).

(** Truth value of an object in [if x:] and [not x]. *)
Definition truthy (o : pyobj) : bool :=
  match o with
  | PNone => false
  | PStr s => negb (bool_decide (s = []))
  | PList items => match items with [] => false | _ => true end
  | PDict d => negb (bool_decide (d = empty))
  | PFunction _ => true
  end.

(** A rasterized page, as handed from pdf2image to pytesseract. *)
Definition image : Type := N.

(** The callables the two actions may invoke. *)
Inductive callee : Type :=
| LocalSummarize
| LocalNer
| HfSummarizer
| HfNer.

(** One entry of the log. *)
Inductive event : Type :=
| EPdfReader (b : bytes)          (* PyPDF2.PdfReader(BytesIO(b)) *)
| EPages                          (* reader.pages *)
| EExtractText                    (* page.extract_text() *)
| EImportPdf2image                (* from pdf2image import convert_from_bytes *)
| EImportPytesseract              (* import pytesseract *)
| EConvertFromBytes (b : bytes)   (* convert_from_bytes(b) *)
| EImageToString (img : image)    (* pytesseract.image_to_string(img) *)
| ECandidateExists                (* candidate.exists() *)
| EExecModule                     (* spec.loader.exec_module(repo_analysis) *)
| EImportTransformers             (* from transformers import pipeline *)
| EPipeline (task : str)          (* pipeline(task, ...) *)
| ECall (f : callee) (arg : str)  (* a backend called on a text *)
| EWarning (msg : str)            (* st.warning(msg) *)
| ETextArea (text : str)          (* st.text_area("Raw text", text) *)
| EWrite (v : pyobj)              (* st.write(v) *)
| EInfo (msg : str).              (* st.info(msg) *)

(** Events of the OCR fallback: the two imports, rasterization, recognition. *)
Definition is_ocr_event (ev : event) : bool :=
  match ev with
  | EImportPdf2image | EImportPytesseract
  | EConvertFromBytes _ | EImageToString _ => true
  | _ => false
  end.

#[global] Instance callee_eq_dec : EqDecision callee.
Proof. solve_decision. Defined.

(** Events of the inference pipeline that serves one capability: building
    the pipeline for [task], and calling it as [f]. *)
Definition is_pipeline_event (task : str) (f : callee) (ev : event) : bool :=
  match ev with
  | EPipeline t => bool_decide (t = task)
  | ECall g _ => bool_decide (g = f)
  | _ => false
  end.

(** ** The monad of the script: a log and a result *)

Module Py.

Definition M (A : Type) : Type := list event * result A.

Definition ret {A} (a : A) : M A := ([], Ret a).

Definition raise {A} (e : exn) : M A := ([], Raise e).

Definition bind {A B} (m : M A) (k : A -> M B) : M B :=
  match m with
  | (t, Ret a) => let (t', r) := k a in (t ++ t', r)
  | (t, Raise e) => (t, Raise e)
  end.

(** [try: body except Exception as e: handler] *)
Definition try_except {A} (body : M A) (handler : exn -> M A) : M A :=
  match body with
  | (t, Raise e) => let (t', r) := handler e in (t ++ t', r)
  | done => done
  end.

(** A library call: logged, then answered by the world. *)
Definition call {A} (ev : event) (answer : result A) : M A := ([ev], answer).

(** A call of the user interface, which only shows something. *)
Definition emit (ev : event) : M unit := ([ev], Ret tt).

(** Lifting a computation that touches no library. *)
Definition pure {A} (r : result A) : M A := ([], r).

Definition trace {A} (m : M A) : list event := fst m.
Definition outcome {A} (m : M A) : result A := snd m.

End Py.
Export Py.

(** No event of the log of [m] is of the kind [P]. *)
Definition quiet {A} (P : event -> bool) (m : M A) : Prop :=
  Forall (fun ev => P ev = false) (trace m).

Declare Scope py_scope.
Delimit Scope py_scope with py.
Notation "x <- m ;; k" := (bind m (fun x => k))
  (at level 100, m at next level, right associativity) : py_scope.
Notation "m ;; k" := (bind m (fun _ => k))
  (at level 100, right associativity) : py_scope.
Open Scope py_scope.

(** A list comprehension or [for] loop whose body calls a library: the
    elements are visited in order and the first fault ends the loop. *)
Fixpoint mapM {A B} (f : A -> M B) (l : list A) : M (list B) :=
  match l with
  | [] => ret []
  | x :: rest => y <- f x ;; ys <- mapM f rest ;; ret (y :: ys)
  end.

(** ** The libraries *)

(** A page object of PyPDF2: what [extract_text()] answers ([None] or a
    [str], or a fault). *)
Record Page : Type := { extract_text : result (option str) }.

(** A [PdfReader]: what [reader.pages] answers when iterated. A fault met
    while a page is fetched counts as the fault of that page's
    [extract_text()]: both end the loop in the same handler. *)
Record Reader : Type := { pages : result (list Page) }.

Record World : Type := {
  (** the module bound by [import PyPDF2], [None] after an [ImportError];
      the module is used through its [PdfReader] constructor only *)
  PyPDF2 : option (bytes -> result Reader);
  (** [from pdf2image import convert_from_bytes] *)
  pdf2image : result (bytes -> result (list image));
  (** [import pytesseract], used through [image_to_string] *)
  pytesseract : result (image -> result str);
  (** [candidate.exists()] for [code/analysis.py] *)
  candidate_exists : result bool;
  (** loading [code/analysis.py]: the names the module defines *)
  exec_module : result (gmap str pyobj);
  (** [from transformers import pipeline] *)
  transformers : result (str -> result pyobj)
}.

(** ** [extract_text_from_pdf_bytes] *)

(** What a [try] block hands to the code after it: an early [return] of the
    function, or the values the block has bound. *)
Inductive flow (A : Type) : Type :=
| Return (s : str)
| Continue (a : A).
Arguments Return {A} s.
Arguments Continue {A} a.

(** [x or ""] for what [extract_text()] answers. *)
Definition or_empty (txt : option str) : str :=
  match txt with
  | Some (c :: s) => c :: s
  | _ => []
  end.

Definition msg_no_pypdf2 : str :=
  lit "PyPDF2 not installed. Install with: pip install PyPDF2".
Definition msg_extraction_error (e : exn) : str :=
  lit "PDF extraction error: " ++ exn_str e.
Definition msg_ocr_missing : str :=
  lit "OCR dependencies missing. Install pdf2image and pytesseract to enable OCR.".
Definition msg_ocr_failed (e : exn) : str :=
  lit "OCR extraction failed: " ++ exn_str e.
Definition msg_no_text : str :=
  lit "No extractable text found. Try enabling OCR.".

(** Lines 22-23: the body of the page loop. *)
Definition page_step (page : Page) : M str :=
  txt <- call EExtractText (extract_text page) ;; ret (or_empty txt).

(** Lines 18-25: the direct extraction. *)
Definition read_text_pages (PdfReader : bytes -> result Reader)
    (pdf_bytes : bytes) : M (flow (list str)) :=
  try_except
    (reader <- call (EPdfReader pdf_bytes) (PdfReader pdf_bytes) ;;
     ps <- call EPages (pages reader) ;;
     text_pages <- mapM page_step ps ;;
     ret (Continue text_pages))
    (fun e => ret (Return (msg_extraction_error e))).

(** Line 40: one element of the OCR comprehension. *)
Definition ocr_step (image_to_string : image -> result str) (img : image)
    : M str :=
  call (EImageToString img) (image_to_string img).

(** Lines 32-43: the OCR fallback. *)
Definition ocr_text_of (w : World) (pdf_bytes : bytes) : M str :=
  imports <- try_except
               (convert_from_bytes <- call EImportPdf2image (pdf2image w) ;;
                image_to_string <- call EImportPytesseract (pytesseract w) ;;
                ret (Continue (convert_from_bytes, image_to_string)))
               (fun _ => ret (Return msg_ocr_missing)) ;;
  match imports with
  | Return s => ret s
  | Continue (convert_from_bytes, image_to_string) =>
      try_except
        (images <- call (EConvertFromBytes pdf_bytes)
                        (convert_from_bytes pdf_bytes) ;;
         ocr_text <- mapM (ocr_step image_to_string) images ;;
         ret (join nl ocr_text))
        (fun e => ret (msg_ocr_failed e))
  end.

Definition extract_text_from_pdf_bytes (w : World) (pdf_bytes : bytes)
    (use_ocr : bool) : M str :=
  match PyPDF2 w with
  | None => ret msg_no_pypdf2
  | Some PdfReader =>
      parsed <- read_text_pages PdfReader pdf_bytes ;;
      match parsed with
      | Return s => ret s
      | Continue text_pages =>
          let text := strip (join nl text_pages) in
          if truthy (PStr text) then ret text
          else if use_ocr then ocr_text_of w pdf_bytes
          else ret msg_no_text
      end
  end.

(** ** Backend resolution (lines 46-74) *)

(** [getattr(module, name, None)] *)
Definition getattr (module : gmap str pyobj) (name : str) : pyobj :=
  default PNone (module !! name).

(** Lines 47-61: [summarize_fn] and [ner_fn]. Both keep [None] unless the
    file exists and loads; a fault anywhere in the block is shown as a
    warning. *)
Definition load_repo_functions (w : World) : M (pyobj * pyobj) :=
  try_except
    (found <- call ECandidateExists (candidate_exists w) ;;
     if (found : bool) then
       repo_analysis <- call EExecModule (exec_module w) ;;
       let summarize_fn := getattr repo_analysis (lit "summarize_text") in
       let ner_fn := getattr repo_analysis (lit "extract_entities") in
       ret (summarize_fn, ner_fn)
     else ret (PNone, PNone))
    (fun e =>
       emit (EWarning (lit "Could not import analysis functions: " ++ exn_str e)) ;;
       ret (PNone, PNone)).

(** Lines 64-74: [hf_summarizer] and [hf_ner]. A pipeline is built only for
    a capability whose repo function is missing. The handler sees the
    assignments made before the fault: when the second [pipeline(...)]
    call fails, [hf_summarizer] keeps what the first one returned. *)
Definition load_hf_pipelines (w : World) (summarize_fn ner_fn : pyobj)
    : M (pyobj * pyobj) :=
  if negb (truthy summarize_fn) || negb (truthy ner_fn) then
    let warn (e : exn) :=
      emit (EWarning (lit "Could not load Hugging Face pipelines: " ++ exn_str e)) in
    try_except
      (pipeline <- call EImportTransformers (transformers w) ;;
       hf_summarizer <-
         (if negb (truthy summarize_fn)
          then call (EPipeline (lit "summarization")) (pipeline (lit "summarization"))
          else ret PNone) ;;
       try_except
         (hf_ner <-
            (if negb (truthy ner_fn)
             then call (EPipeline (lit "ner")) (pipeline (lit "ner"))
             else ret PNone) ;;
          ret (hf_summarizer, hf_ner))
         (fun e => warn e ;; ret (hf_summarizer, PNone)))
      (fun e => warn e ;; ret (PNone, PNone))
  else ret (PNone, PNone).

(** The four module-level bindings after lines 46-74. *)
Record Backends : Type := {
  summarize_fn : pyobj;
  ner_fn : pyobj;
  hf_summarizer : pyobj;
  hf_ner : pyobj
}.

Definition resolve_backends (w : World) : M Backends :=
  repo <- load_repo_functions w ;;
  hf <- load_hf_pipelines w (fst repo) (snd repo) ;;
  ret {| summarize_fn := fst repo; ner_fn := snd repo;
         hf_summarizer := fst hf; hf_ner := snd hf |}.

(** ** The two actions (lines 92-118) *)

Definition TypeError (msg : String.string) : exn :=
  Exception "TypeError" (lit msg).
Definition IndexError (msg : String.string) : exn :=
  Exception "IndexError" (lit msg).
Definition KeyError (key : str) : exn :=
  Exception "KeyError" (lit "'" ++ key ++ lit "'").

(** [f(arg)]: only a callable can be called. *)
Definition py_call (who : callee) (f : pyobj) (arg : str) : M pyobj :=
  match f with
  | PFunction g => call (ECall who arg) (g arg)
  | _ => raise (TypeError "object is not callable")
  end.

(** [o[0]] *)
Definition getitem_0 (o : pyobj) : result pyobj :=
  match o with
  | PList items =>
      match items !! 0 with
      | Some x => Ret x
      | None => Raise (IndexError "list index out of range")
      end
  | PStr s =>
      match s !! 0 with
      | Some c => Ret (PStr [c])
      | None => Raise (IndexError "string index out of range")
      end
  | PDict d => Raise (Exception "KeyError" (lit "0"))
  | PNone | PFunction _ => Raise (TypeError "object is not subscriptable")
  end.

(** [o[key]] for a [str] key *)
Definition getitem_key (o : pyobj) (key : str) : result pyobj :=
  match o with
  | PDict d =>
      match d !! key with
      | Some x => Ret x
      | None => Raise (KeyError key)
      end
  | PList _ | PStr _ => Raise (TypeError "indices must be integers or slices, not str")
  | PNone | PFunction _ => Raise (TypeError "object is not subscriptable")
  end.

(** [sep.join(items)] on objects: every item has to be a [str]. *)
Fixpoint as_strs (items : list pyobj) : result (list str) :=
  match items with
  | [] => Ret []
  | PStr s :: rest =>
      match as_strs rest with
      | Ret ss => Ret (s :: ss)
      | Raise e => Raise e
      end
  | _ :: _ => Raise (TypeError "sequence item: expected str instance")
  end.

Definition py_join (sep : str) (items : list pyobj) : result str :=
  match as_strs items with
  | Ret ss => Ret (join sep ss)
  | Raise e => Raise e
  end.

Definition MAX_CHUNK : nat := 1000.

(** Line 99: [[extracted[i:i+MAX_CHUNK] for i in range(0, len(extracted), MAX_CHUNK)]] *)
Definition chunks (extracted : str) : list str :=
  map (fun i => slice extracted i (i + MAX_CHUNK))
      (range 0 (length extracted) MAX_CHUNK).

(** [out[0]["summary_text"]] *)
Definition summary_text (out : pyobj) : result pyobj :=
  match getitem_0 out with
  | Ret first => getitem_key first (lit "summary_text")
  | Raise e => Raise e
  end.

Definition msg_no_summarizer : str :=
  lit "No summarization backend available. Install transformers or add summarize_text in code/analysis.py".
Definition msg_no_ner : str :=
  lit "No NER backend available. Install transformers or add extract_entities in code/analysis.py".

(** Lines 93-103: the value bound to [summary]. *)
Definition summarize (b : Backends) (extracted : str) : M pyobj :=
  if truthy (summarize_fn b) then
    py_call LocalSummarize (summarize_fn b) extracted
  else if truthy (hf_summarizer b) then
    summaries <- mapM (fun c =>
                         out <- py_call HfSummarizer (hf_summarizer b) c ;;
                         pure (summary_text out))
                      (chunks extracted) ;;
    summary <- pure (py_join (nl ++ nl) summaries) ;;
    ret (PStr summary)
  else ret (PStr msg_no_summarizer).

(** Lines 109-116: the value bound to [entities]. *)
Definition extract_entities (b : Backends) (extracted : str) : M pyobj :=
  if truthy (ner_fn b) then
    py_call LocalNer (ner_fn b) extracted
  else if truthy (hf_ner b) then
    py_call HfNer (hf_ner b) extracted
  else ret (PStr msg_no_ner).

(** ** One run of the script *)

(** What the user has set when the script runs. *)
Record Inputs : Type := {
  uploaded : option bytes;
  use_ocr : bool;
  show_raw : bool;
  summarize_clicked : bool;
  entities_clicked : bool
}.

Definition when (c : bool) (m : M unit) : M unit := if c then m else ret tt.

Definition script (w : World) (ui : Inputs) : M unit :=
  b <- resolve_backends w ;;
  match uploaded ui with
  | Some bytes_data =>
      extracted <- extract_text_from_pdf_bytes w bytes_data (use_ocr ui) ;;
      when (show_raw ui) (emit (ETextArea extracted)) ;;
      when (summarize_clicked ui)
           (summary <- summarize b extracted ;; emit (EWrite summary)) ;;
      when (entities_clicked ui)
           (entities <- extract_entities b extracted ;; emit (EWrite entities))
  | None => emit (EInfo (lit "Upload a PDF to start analysis."))
  end.

(** ** What the libraries say about a document *)

(** The document parses, and its pages yield [texts] in document order. *)
Definition pdf_pages (w : World) (b : bytes) (texts : list (option str)) : Prop :=
  exists PdfReader reader ps,
    PyPDF2 w = Some PdfReader /\
    PdfReader b = Ret reader /\
    pages reader = Ret ps /\
    Forall2 (fun page txt => extract_text page = Ret txt) ps texts.

(** The text of line 27: the page texts joined by newlines, stripped. *)
Definition direct_text (texts : list (option str)) : str :=
  strip (join nl (map or_empty texts)).

(** A structural or parsing fault [e]: raised when the reader is built,
    when its pages are listed, or by the first page that fails. *)
Inductive read_fault (PdfReader : bytes -> result Reader) (b : bytes) (e : exn)
    : Prop :=
| fault_reader :
    PdfReader b = Raise e -> read_fault PdfReader b e
| fault_pages reader :
    PdfReader b = Ret reader -> pages reader = Raise e ->
    read_fault PdfReader b e
| fault_page reader before page after texts :
    PdfReader b = Ret reader ->
    pages reader = Ret (before ++ page :: after) ->
    Forall2 (fun page txt => extract_text page = Ret txt) before texts ->
    extract_text page = Raise e ->
    read_fault PdfReader b e.

(** An OCR dependency is missing. *)
Inductive ocr_import_fault (w : World) : Prop :=
| fault_pdf2image e :
    pdf2image w = Raise e -> ocr_import_fault w
| fault_pytesseract convert e :
    pdf2image w = Ret convert -> pytesseract w = Raise e ->
    ocr_import_fault w.

(** The OCR backend works: the document is rasterized into [images], one
    per page in page order, and each image is recognized on its own. *)
Definition ocr_pages (w : World) (b : bytes) (images : list image)
    (outs : list str) : Prop :=
  exists convert image_to_string,
    pdf2image w = Ret convert /\
    pytesseract w = Ret image_to_string /\
    convert b = Ret images /\
    Forall2 (fun img out => image_to_string img = Ret out) images outs.

(** An OCR processing fault [e]: raised by rasterization, or by the first
    image whose recognition fails. *)
Inductive ocr_fault (w : World) (b : bytes) (e : exn) : Prop :=
| fault_convert convert image_to_string :
    pdf2image w = Ret convert -> pytesseract w = Ret image_to_string ->
    convert b = Raise e ->
    ocr_fault w b e
| fault_recognize convert image_to_string before img after outs :
    pdf2image w = Ret convert -> pytesseract w = Ret image_to_string ->
    convert b = Ret (before ++ img :: after) ->
    Forall2 (fun img out => image_to_string img = Ret out) before outs ->
    image_to_string img = Raise e ->
    ocr_fault w b e.

(** The log of a direct extraction over [n] pages. *)
Definition direct_trace (b : bytes) (n : nat) : list event :=
  EPdfReader b :: EPages :: repeat EExtractText n.

(** The log of an OCR run over [images]. *)
Definition ocr_trace (b : bytes) (images : list image) : list event :=
  EImportPdf2image :: EImportPytesseract :: EConvertFromBytes b ::
  map EImageToString images.

(** The ways [extract_text_from_pdf_bytes w b use_ocr] returns a string,
    one per [return] statement of the function. *)
Inductive returns (w : World) (b : bytes) (use_ocr : bool) : str -> Prop :=
| returns_no_pypdf2 :
    PyPDF2 w = None ->
    returns w b use_ocr msg_no_pypdf2
| returns_extraction_error PdfReader e :
    PyPDF2 w = Some PdfReader -> read_fault PdfReader b e ->
    returns w b use_ocr (msg_extraction_error e)
| returns_text texts :
    pdf_pages w b texts -> direct_text texts <> [] ->
    returns w b use_ocr (direct_text texts)
| returns_ocr_missing texts :
    pdf_pages w b texts -> direct_text texts = [] -> use_ocr = true ->
    ocr_import_fault w ->
    returns w b use_ocr msg_ocr_missing
| returns_ocr_text texts images outs :
    pdf_pages w b texts -> direct_text texts = [] -> use_ocr = true ->
    ocr_pages w b images outs ->
    returns w b use_ocr (join nl outs)
| returns_ocr_failed texts e :
    pdf_pages w b texts -> direct_text texts = [] -> use_ocr = true ->
    ocr_fault w b e ->
    returns w b use_ocr (msg_ocr_failed e)
| returns_no_text texts :
    pdf_pages w b texts -> direct_text texts = [] -> use_ocr = false ->
    returns w b use_ocr msg_no_text.

(** The strings the function makes up itself: its two messages about a
    missing dependency, its two error reports and the sentinel that asks
    for OCR. *)
Inductive message : str -> Prop :=
| message_no_pypdf2 : message msg_no_pypdf2
| message_extraction_error e : message (msg_extraction_error e)
| message_ocr_missing : message msg_ocr_missing
| message_ocr_failed e : message (msg_ocr_failed e)
| message_no_text : message msg_no_text.

(** Line 100: one element of the summaries comprehension, for a pipeline
    [hf]. *)
Definition hf_step (hf : str -> result pyobj) (c : str) : M pyobj :=
  out <- call (ECall HfSummarizer c) (hf c) ;; pure (summary_text out).

(** ** Kinds of events *)

(** A backend is called. *)
Definition is_call (ev : event) : bool :=
  match ev with ECall _ _ => true | _ => false end.

(** A result is shown with [st.write]. *)
Definition is_write (ev : event) : bool :=
  match ev with EWrite _ => true | _ => false end.

(** transformers is imported or asked for a pipeline. *)
Definition is_transformers_event (ev : event) : bool :=
  match ev with EImportTransformers | EPipeline _ => true | _ => false end.

(** The event hands no text on, or it hands on the text [s]: the raw text
    area shows [s], the summarization pipeline is called on a chunk of
    [s], any other backend on [s] itself. *)
Definition feeds (s : str) (ev : event) : bool :=
  match ev with
  | ETextArea text => bool_decide (text = s)
  | ECall HfSummarizer arg => bool_decide (arg ∈ chunks s)
  | ECall _ arg => bool_decide (arg = s)
  | _ => true
  end.

(** Lines 86-118: what the script does with the extracted text. *)
Definition show_results (ui : Inputs) (b : Backends) (extracted : str)
    : M unit :=
  when (show_raw ui) (emit (ETextArea extracted)) ;;
  when (summarize_clicked ui)
       (summary <- summarize b extracted ;; emit (EWrite summary)) ;;
  when (entities_clicked ui)
       (entities <- extract_entities b extracted ;; emit (EWrite entities)).

(** The log of lines 86-88. *)
Definition raw_area (ui : Inputs) (extracted : str) : list event :=
  if show_raw ui then [ETextArea extracted] else [].

(** ** Sample documents and installations *)

Module Samples.

(** A page whose [extract_text()] answers [txt]. *)
Definition text_page (txt : option str) : Page := {| extract_text := Ret txt |}.

(** PyPDF2 as it answers an empty upload. *)
Definition EmptyFileError : exn :=
  Exception "EmptyFileError" (lit "Cannot read an empty file").

(** An installation with PyPDF2, pdf2image and pytesseract, without
    [code/analysis.py] and without transformers. A non-empty upload has the
    pages [texts]; rasterized, its pages are the images [0], [1], ... and
    image [i] is recognized as the [i]-th element of [scans]. *)
Definition installed (texts : list (option str)) (scans : list str) : World :=
  {| PyPDF2 := Some (fun b =>
                       match b with
                       | [] => Raise EmptyFileError
                       | _ => Ret {| pages := Ret (map text_page texts) |}
                       end);
     pdf2image := Ret (fun _ => Ret (map N.of_nat (seq 0 (length scans))));
     pytesseract := Ret (fun img =>
                           match scans !! N.to_nat img with
                           | Some out => Ret out
                           | None => Raise (Exception "TesseractError" (lit "no image"))
                           end);
     candidate_exists := Ret false;
     exec_module := Raise (Exception "FileNotFoundError" (lit "code/analysis.py"));
     transformers := Raise (Exception "ModuleNotFoundError"
                                      (lit "No module named 'transformers'")) |}.

(** The bytes of some non-empty upload. *)
Definition some_pdf : bytes := [Byte.x25; Byte.x50; Byte.x44; Byte.x46].

(** What tesseract prints for a page that reads "Lease": the line, a line
    feed and the form feed that ends a page. *)
Definition scan_lease : str := lit "Lease" ++ [10; 12]%N.

(** The first [n] characters of a text, a stand-in for a summary. *)
Definition headline (n : nat) (text : str) : str := take n text.

(** A repo function [summarize_text]: the first 12 characters. *)
Definition repo_summarize (text : str) : result pyobj :=
  Ret (PStr (headline 12 text)).

(** A repo function [extract_entities]: one entity, the first word. *)
Definition repo_entities (text : str) : result pyobj :=
  Ret (PList [PDict {[ lit "text" := PStr (headline 5 text);
                       lit "type" := PStr (lit "MISC") ]}]).

(** A summarization model: it answers [[{"summary_text": ...}]] with the
    first 3 characters of its input. *)
Definition summarizer_model (c : str) : result pyobj :=
  Ret (PList [PDict {[ lit "summary_text" := PStr (headline 3 c) ]}]).

(** An entity model that finds nothing. *)
Definition ner_model (_ : str) : result pyobj := Ret (PList []).

(** What [pipeline(task)] builds. *)
Definition hf_pipeline (task : str) : result pyobj :=
  if bool_decide (task = lit "summarization")
  then Ret (PFunction summarizer_model)
  else Ret (PFunction ner_model).

(** [installed], with [code/analysis.py] defining [names] and with
    transformers installed. *)
Definition with_backends (names : gmap str pyobj) (texts : list (option str))
    : World :=
  {| PyPDF2 := PyPDF2 (installed texts []);
     pdf2image := pdf2image (installed texts []);
     pytesseract := pytesseract (installed texts []);
     candidate_exists := Ret true;
     exec_module := Ret names;
     transformers := Ret hf_pipeline |}.

(** A [code/analysis.py] with both entry points. *)
Definition both_functions : gmap str pyobj :=
  {[ lit "summarize_text" := PFunction repo_summarize;
     lit "extract_entities" := PFunction repo_entities ]}.

(** [installed], with a reader whose pages are [ps]. *)
Definition with_pages (ps : list Page) : World :=
  {| PyPDF2 := Some (fun _ => Ret {| pages := Ret ps |});
     pdf2image := pdf2image (installed [] []);
     pytesseract := pytesseract (installed [] []);
     candidate_exists := candidate_exists (installed [] []);
     exec_module := exec_module (installed [] []);
     transformers := transformers (installed [] []) |}.

(** A page that PyPDF2 cannot decode. *)
Definition broken_page : Page :=
  {| extract_text := Raise (Exception "PdfReadError" (lit "Invalid stream")) |}.

(** [installed texts scans], rasterized into the images [images]
    whatever [scans] holds: an image without a scan is not recognized. *)
Definition with_images (texts : list (option str)) (images : list image)
    (scans : list str) : World :=
  {| PyPDF2 := PyPDF2 (installed texts scans);
     pdf2image := Ret (fun _ => Ret images);
     pytesseract := pytesseract (installed texts scans);
     candidate_exists := candidate_exists (installed texts scans);
     exec_module := exec_module (installed texts scans);
     transformers := transformers (installed texts scans) |}.

(** [installed texts []] with [code/analysis.py] as [analysis] says (absent
    when [None]) and transformers as [tr] says. *)
Definition with_analysis (analysis : option (result (gmap str pyobj)))
    (tr : result (str -> result pyobj)) (texts : list (option str)) : World :=
  {| PyPDF2 := PyPDF2 (installed texts []);
     pdf2image := pdf2image (installed texts []);
     pytesseract := pytesseract (installed texts []);
     candidate_exists := Ret (match analysis with Some _ => true | None => false end);
     exec_module := match analysis with
                    | Some r => r
                    | None => exec_module (installed texts [])
                    end;
     transformers := tr |}.

(** transformers whose summarization model cannot be loaded. *)
Definition no_summarization_model (task : str) : result pyobj :=
  if bool_decide (task = lit "summarization")
  then Raise (Exception "OSError" (lit "model not found"))
  else Ret (PFunction ner_model).

(** transformers whose entity model cannot be loaded. *)
Definition no_ner_model (task : str) : result pyobj :=
  if bool_decide (task = lit "summarization")
  then Ret (PFunction summarizer_model)
  else Raise (Exception "OSError" (lit "model not found")).

(** A summarization model that fails on an input that starts with "b". *)
Definition picky_model (c : str) : result pyobj :=
  match c with
  | 98%N :: _ => Raise (Exception "RuntimeError" (lit "out of memory"))
  | _ => summarizer_model c
  end.

(** A summarization model that answers with an empty list. *)
Definition mute_model (_ : str) : result pyobj := Ret (PList []).


(** The installation [w] without PyPDF2. *)
Definition without_pypdf2 (w : World) : World :=
  {| PyPDF2 := None;
     pdf2image := pdf2image w;
     pytesseract := pytesseract w;
     candidate_exists := candidate_exists w;
     exec_module := exec_module w;
     transformers := transformers w |}.

(** The bindings when only the summarization pipeline [hf] is there. *)
Definition only_summarizer (hf : str -> result pyobj) : Backends :=
  {| summarize_fn := PNone; ner_fn := PNone;
     hf_summarizer := PFunction hf; hf_ner := PNone |}.

(** A text of 2500 characters: 1000 "a", 1000 "b", 500 "c". *)
Definition long_text : str :=
  repeat 97%N 1000 ++ repeat 98%N 1000 ++ repeat 99%N 500.

(** What the user has set: an upload or none, and which buttons. *)
Definition pressed (upload : option bytes) (summarize entities : bool)
    : Inputs :=
  {| uploaded := upload; use_ocr := false; show_raw := true;
     summarize_clicked := summarize; entities_clicked := entities |}.

End Samples.

(** * Properties *)

(** ** Strings: [strip], [join] and whitespace *)

Section StripFacts.

Implicit Types (s t : str) (c : N).

Lemma blank_nil : blank [].
Proof. constructor. Qed.

Lemma blank_cons c s : blank (c :: s) <-> isspace c = true /\ blank s.
Proof. exact (Forall_cons _ c s). Qed.

Lemma blank_app s t : blank (s ++ t) <-> blank s /\ blank t.
Proof. exact (Forall_app _ s t). Qed.

Lemma blank_rev s : blank (rev s) <-> blank s.
Proof.
  induction s as [|c s IH]; simpl; [tauto|].
  rewrite blank_app, IH, !blank_cons. pose proof blank_nil. tauto.
Qed.

(** [lstrip] removes a blank prefix and nothing else. *)
Lemma lstrip_split s : exists p, blank p /\ s = p ++ lstrip s.
Proof.
  induction s as [|c s [p [Hp Hs]]]; simpl.
  - exists []. split; [apply blank_nil | reflexivity].
  - destruct (isspace c) eqn:Hc.
    + exists (c :: p). split; [by apply blank_cons | by simpl; f_equal].
    + exists []. split; [apply blank_nil | reflexivity].
Qed.

Lemma lstrip_head s c : head (lstrip s) = Some c -> isspace c = false.
Proof.
  induction s as [|d s IH]; simpl; [discriminate|].
  destruct (isspace d) eqn:Hd; [exact IH|].
  simpl. intros [= <-]. exact Hd.
Qed.

Lemma lstrip_nil_iff s : lstrip s = [] <-> blank s.
Proof.
  induction s as [|c s IH]; simpl.
  - split; [intros _; apply blank_nil | reflexivity].
  - rewrite blank_cons. destruct (isspace c); [|split; [discriminate | intros [[=] _]]].
    rewrite IH. tauto.
Qed.

Lemma blank_lstrip s : blank (lstrip s) <-> blank s.
Proof.
  destruct (lstrip_split s) as [p [Hp Hs]].
  rewrite Hs at 2. rewrite blank_app. tauto.
Qed.

(** A character that is not whitespace, at the end, stops [lstrip]. *)
Lemma lstrip_snoc s c : isspace c = false -> lstrip (s ++ [c]) = lstrip s ++ [c].
Proof.
  intros Hc. induction s as [|d s IH]; simpl.
  - by rewrite Hc.
  - destruct (isspace d); [exact IH | reflexivity].
Qed.

Lemma rev_nil_iff s : rev s = [] <-> s = [].
Proof.
  split; [|by intros ->].
  intros H. apply (f_equal (@rev N)) in H. by rewrite rev_involutive in H.
Qed.

Lemma last_rev_head s : last (rev s) = head s.
Proof. destruct s as [|c s]; [reflexivity|]. simpl. apply last_snoc. Qed.

Lemma strip_nil_iff s : strip s = [] <-> blank s.
Proof.
  unfold strip, rstrip.
  rewrite rev_nil_iff, lstrip_nil_iff, blank_rev. apply blank_lstrip.
Qed.

(** What [strip] returns has no whitespace at either end. *)
Lemma strip_trimmed s : trimmed (strip s).
Proof.
  unfold trimmed, strip, rstrip. intros c [Hc|Hc].
  - destruct (lstrip s) as [|d t] eqn:Hl; [discriminate|].
    assert (Hd : isspace d = false) by (apply (lstrip_head s); by rewrite Hl).
    simpl in Hc. rewrite (lstrip_snoc _ _ Hd), rev_app_distr in Hc.
    simpl in Hc. by injection Hc as <-.
  - rewrite last_rev_head in Hc. by apply lstrip_head in Hc.
Qed.

Lemma blank_nl : blank nl.
Proof. by repeat constructor. Qed.

(** A newline-join is blank exactly when every item is. *)
Lemma blank_join (items : list str) : blank (join nl items) <-> Forall blank items.
Proof.
  induction items as [|x [|y rest] IH].
  - simpl. split; constructor.
  - simpl. rewrite Forall_singleton. reflexivity.
  - change (join nl (x :: y :: rest)) with (x ++ nl ++ join nl (y :: rest)).
    rewrite !blank_app, IH, (Forall_cons _ x). pose proof blank_nl. tauto.
Qed.

(** The text has something to show exactly when some item has a character
    that is not whitespace. *)
Lemma strip_join_nonempty (items : list str) :
  strip (join nl items) <> [] <-> Exists (fun x => ~ blank x) items.
Proof.
  rewrite strip_nil_iff, blank_join. split.
  - apply Exists_Forall_neg. intros x. unfold blank.
    destruct (decide (Forall (fun c => isspace c = true) x)); tauto.
  - intros H HF. apply Exists_exists in H as [x [Hx Hn]].
    rewrite Forall_forall in HF. apply Hn, HF. exact Hx.
Qed.

Lemma truthy_PStr s : truthy (PStr s) = true <-> s <> [].
Proof. simpl. rewrite negb_true_iff, bool_decide_eq_false. tauto. Qed.

Lemma truthy_PStr_false s : truthy (PStr s) = false <-> s = [].
Proof. simpl. rewrite negb_false_iff, bool_decide_eq_true. tauto. Qed.

End StripFacts.

(** ** The monad and its loops *)

Section MonadFacts.

Context {A B : Type}.

Lemma bind_Ret (m : M A) (k : A -> M B) a :
  outcome m = Ret a -> bind m k = (trace m ++ trace (k a), outcome (k a)).
Proof.
  destruct m as [t r]. simpl. intros ->.
  unfold bind, trace, outcome. by destruct (k a).
Qed.

Lemma bind_Raise (m : M A) (k : A -> M B) e :
  outcome m = Raise e -> bind m k = (trace m, Raise e).
Proof. destruct m as [t r]. simpl. by intros ->. Qed.

End MonadFacts.

Section Loops.

Context {A B : Type} (f : A -> M B).

(** A loop all of whose steps return visits every element. *)
Lemma mapM_ok (l : list A) (ys : list B) :
  Forall2 (fun x y => outcome (f x) = Ret y) l ys ->
  mapM f l = (concat (map (fun x => trace (f x)) l), Ret ys).
Proof.
  induction 1 as [|x y l ys Hx _ IH]; [reflexivity|].
  simpl. rewrite (bind_Ret _ _ _ Hx), IH. simpl. by rewrite app_nil_r.
Qed.

(** A loop stops at the first step that raises, with that fault. *)
Lemma mapM_raise (before after : list A) (x : A) (ys : list B) (e : exn) :
  Forall2 (fun x y => outcome (f x) = Ret y) before ys ->
  outcome (f x) = Raise e ->
  outcome (mapM f (before ++ x :: after)) = Raise e.
Proof.
  intros Hb Hx. induction Hb as [|x' y l ys' Hx' _ IH]; simpl.
  - by rewrite (bind_Raise _ _ _ Hx).
  - rewrite (bind_Ret _ _ _ Hx'). simpl.
    destruct (mapM f (l ++ x :: after)) as [t [zs|e']]; simpl in *; congruence.
Qed.

(** Every loop does one or the other. *)
Lemma mapM_total (l : list A) :
  (exists ys, Forall2 (fun x y => outcome (f x) = Ret y) l ys) \/
  (exists before x after ys e,
      l = before ++ x :: after /\
      Forall2 (fun x y => outcome (f x) = Ret y) before ys /\
      outcome (f x) = Raise e).
Proof.
  induction l as [|x l IH].
  - left. exists []. constructor.
  - destruct (outcome (f x)) as [y|e] eqn:Hx.
    + destruct IH as [[ys H]|(before & x' & after & ys & e & -> & Hb & Hx')].
      * left. exists (y :: ys). by constructor.
      * right. exists (x :: before), x', after, (y :: ys), e.
        split; [reflexivity|]. split; [by constructor | exact Hx'].
    + right. exists [], x, l, [], e.
      split; [reflexivity|]. split; [constructor | exact Hx].
Qed.

End Loops.

(** ** The extractor, step by step *)

Section Extractor.

Variables (w : World) (b : bytes).

Lemma page_step_trace page : trace (page_step page) = [EExtractText].
Proof. unfold page_step. by destruct (extract_text page). Qed.

Lemma page_step_Ret page s :
  outcome (page_step page) = Ret s <->
  exists txt, extract_text page = Ret txt /\ s = or_empty txt.
Proof.
  unfold page_step. destruct (extract_text page) as [txt|e]; simpl.
  - split; [intros [= <-]; by exists txt | by intros (? & [= <-] & ->)].
  - split; [discriminate | by intros (? & [=] & _)].
Qed.

Lemma page_step_Raise page e :
  outcome (page_step page) = Raise e <-> extract_text page = Raise e.
Proof.
  unfold page_step. destruct (extract_text page) as [txt|e']; simpl;
    split; congruence.
Qed.

Lemma page_steps_ok ps texts :
  Forall2 (fun page txt => extract_text page = Ret txt) ps texts ->
  Forall2 (fun page s => outcome (page_step page) = Ret s) ps (map or_empty texts).
Proof.
  induction 1; simpl; constructor; [|assumption].
  apply page_step_Ret. eauto.
Qed.

Lemma page_steps_inv ps ss :
  Forall2 (fun page s => outcome (page_step page) = Ret s) ps ss ->
  exists texts,
    Forall2 (fun page txt => extract_text page = Ret txt) ps texts /\
    ss = map or_empty texts.
Proof.
  induction 1 as [|page s ps ss H _ (texts & IH & ->)].
  - exists []. split; [constructor | reflexivity].
  - apply page_step_Ret in H as (txt & H & ->).
    exists (txt :: texts). split; [by constructor | reflexivity].
Qed.

Lemma page_steps_trace ps :
  concat (map (fun page => trace (page_step page)) ps)
  = repeat EExtractText (length ps).
Proof.
  induction ps as [|p ps IH]; [reflexivity|].
  simpl. by rewrite page_step_trace, IH.
Qed.

Variable PdfReader : bytes -> result Reader.

Lemma read_text_pages_ok reader ps texts :
  PdfReader b = Ret reader -> pages reader = Ret ps ->
  Forall2 (fun page txt => extract_text page = Ret txt) ps texts ->
  read_text_pages PdfReader b
  = (direct_trace b (length texts), Ret (Continue (map or_empty texts))).
Proof.
  intros Hr Hp Hall. unfold read_text_pages. rewrite Hr. simpl. rewrite Hp.
  simpl.
  rewrite (mapM_ok _ _ _ (page_steps_ok _ _ Hall)), page_steps_trace.
  simpl. rewrite app_nil_r.
  by rewrite (Forall2_length _ _ _ Hall).
Qed.

Lemma read_text_pages_fault e :
  read_fault PdfReader b e ->
  outcome (read_text_pages PdfReader b) = Ret (Return (msg_extraction_error e)).
Proof.
  unfold read_text_pages.
  intros [Hr | reader Hr Hp | reader before page after texts Hr Hp Hall He].
  - by rewrite Hr.
  - rewrite Hr. simpl. by rewrite Hp.
  - rewrite Hr. simpl. rewrite Hp. simpl.
    apply page_step_Raise in He.
    pose proof (mapM_raise page_step before after page _ e
                  (page_steps_ok _ _ Hall) He) as Hm.
    destruct (mapM page_step (before ++ page :: after)) as [t r].
    simpl in Hm. by subst r.
Qed.

(** The direct extraction either reads every page or meets a fault. *)
Lemma read_text_pages_total :
  (exists e, read_fault PdfReader b e) \/
  (exists reader ps texts,
      PdfReader b = Ret reader /\ pages reader = Ret ps /\
      Forall2 (fun page txt => extract_text page = Ret txt) ps texts).
Proof.
  destruct (PdfReader b) as [reader|e] eqn:Hr;
    [|left; exists e; by apply fault_reader].
  destruct (pages reader) as [ps|e] eqn:Hp;
    [|left; exists e; by eapply fault_pages].
  destruct (mapM_total page_step ps)
    as [[ss H]|(before & page & after & ss & e & -> & Hb & He)].
  - right. apply page_steps_inv in H as (texts & H & _). by exists reader, ps, texts.
  - left. exists e. apply page_steps_inv in Hb as (texts & Hb & _).
    apply page_step_Raise in He. by eapply fault_page.
Qed.

End Extractor.

Section Ocr.

Variables (w : World) (b : bytes).

Lemma ocr_steps_ok image_to_string images outs :
  Forall2 (fun img out => image_to_string img = Ret out) images outs ->
  mapM (ocr_step image_to_string) images = (map EImageToString images, Ret outs).
Proof.
  intros H. rewrite (mapM_ok _ images outs); [|exact H].
  f_equal. induction images as [|img images IH] in outs, H |- *; [reflexivity|].
  inversion H; subst. simpl. f_equal. eauto.
Qed.

Lemma ocr_text_of_ok images outs :
  ocr_pages w b images outs ->
  ocr_text_of w b = (ocr_trace b images, Ret (join nl outs)).
Proof.
  intros (convert & image_to_string & Hc & Hi & Hb & Hall).
  unfold ocr_text_of. rewrite Hc, Hi. simpl. rewrite Hb. simpl.
  rewrite (ocr_steps_ok _ _ _ Hall). simpl. by rewrite app_nil_r.
Qed.

Lemma ocr_text_of_missing :
  ocr_import_fault w -> outcome (ocr_text_of w b) = Ret msg_ocr_missing.
Proof.
  unfold ocr_text_of. intros [e He | convert e Hc He].
  - by rewrite He.
  - by rewrite Hc, He.
Qed.

Lemma ocr_text_of_failed e :
  ocr_fault w b e -> outcome (ocr_text_of w b) = Ret (msg_ocr_failed e).
Proof.
  unfold ocr_text_of.
  intros [convert its Hc Hi Hb | convert its before img after outs Hc Hi Hb Hall He];
    rewrite Hc, Hi; simpl; rewrite Hb; simpl; [reflexivity|].
  pose proof (mapM_raise (ocr_step its) before after img outs e Hall He) as Hm.
  destruct (mapM (ocr_step its) (before ++ img :: after)) as [t r].
  simpl in Hm. by subst r.
Qed.

(** The fallback meets a missing dependency, a processing fault, or works. *)
Lemma ocr_total :
  ocr_import_fault w \/ (exists e, ocr_fault w b e) \/
  (exists images outs, ocr_pages w b images outs).
Proof.
  destruct (pdf2image w) as [convert|e] eqn:Hc;
    [|left; by eapply fault_pdf2image].
  destruct (pytesseract w) as [its|e] eqn:Hi;
    [|left; by eapply fault_pytesseract].
  right. destruct (convert b) as [images|e] eqn:Hb;
    [|left; exists e; by eapply fault_convert].
  destruct (mapM_total (ocr_step its) images)
    as [[outs H]|(before & img & after & outs & e & -> & Hall & He)].
  - right. by exists images, outs, convert, its.
  - left. exists e. by eapply fault_recognize.
Qed.

End Ocr.

(** ** The extractor as a whole *)

Section Extract.

Variables (w : World) (b : bytes).

Lemma extract_direct use_ocr texts :
  pdf_pages w b texts -> direct_text texts <> [] ->
  extract_text_from_pdf_bytes w b use_ocr
  = (direct_trace b (length texts), Ret (direct_text texts)).
Proof.
  intros (rd & reader & ps & Hw & Hr & Hp & Hall) Hne.
  unfold extract_text_from_pdf_bytes. rewrite Hw.
  rewrite (read_text_pages_ok _ _ _ _ _ Hr Hp Hall).
  apply truthy_PStr in Hne. unfold direct_text in *.
  cbn [bind]. rewrite Hne. cbn. by rewrite app_nil_r.
Qed.

Lemma extract_no_text texts :
  pdf_pages w b texts -> direct_text texts = [] ->
  extract_text_from_pdf_bytes w b false
  = (direct_trace b (length texts), Ret msg_no_text).
Proof.
  intros (rd & reader & ps & Hw & Hr & Hp & Hall) He.
  unfold extract_text_from_pdf_bytes. rewrite Hw.
  rewrite (read_text_pages_ok _ _ _ _ _ Hr Hp Hall).
  apply truthy_PStr_false in He. unfold direct_text in *.
  cbn [bind]. rewrite He. cbn. by rewrite app_nil_r.
Qed.

Lemma extract_ocr texts :
  pdf_pages w b texts -> direct_text texts = [] ->
  extract_text_from_pdf_bytes w b true
  = (direct_trace b (length texts) ++ trace (ocr_text_of w b),
     outcome (ocr_text_of w b)).
Proof.
  intros (rd & reader & ps & Hw & Hr & Hp & Hall) He.
  unfold extract_text_from_pdf_bytes. rewrite Hw.
  rewrite (read_text_pages_ok _ _ _ _ _ Hr Hp Hall).
  apply truthy_PStr_false in He. unfold direct_text in *.
  cbn [bind]. rewrite He. by destruct (ocr_text_of w b).
Qed.

(** Each case of [returns] is what the function returns. *)
Lemma extract_sound use_ocr s :
  returns w b use_ocr s ->
  outcome (extract_text_from_pdf_bytes w b use_ocr) = Ret s.
Proof.
  intros [Hw | rd e Hw Hf | texts Hp Hne | texts Hp He -> Hf
         | texts images outs Hp He -> Ho | texts e Hp He -> Hf | texts Hp He ->].
  - unfold extract_text_from_pdf_bytes. by rewrite Hw.
  - unfold extract_text_from_pdf_bytes. rewrite Hw.
    pose proof (read_text_pages_fault b rd e Hf) as Hm.
    destruct (read_text_pages rd b) as [t r]. simpl in Hm. by subst r.
  - by rewrite (extract_direct _ _ Hp Hne).
  - rewrite (extract_ocr _ Hp He). by apply ocr_text_of_missing.
  - rewrite (extract_ocr _ Hp He). by rewrite (ocr_text_of_ok _ _ _ _ Ho).
  - rewrite (extract_ocr _ Hp He). by apply ocr_text_of_failed.
  - by rewrite (extract_no_text _ Hp He).
Qed.

(** Some case of [returns] always applies. *)
Lemma returns_total use_ocr : exists s, returns w b use_ocr s.
Proof.
  destruct (PyPDF2 w) as [rd|] eqn:Hw;
    [|eexists; by apply returns_no_pypdf2].
  destruct (read_text_pages_total b rd)
    as [[e Hf]|(reader & ps & texts & Hr & Hp & Hall)];
    [eexists; by eapply returns_extraction_error|].
  assert (Hpdf : pdf_pages w b texts) by (by exists rd, reader, ps).
  destruct (decide (direct_text texts = [])) as [He|Hne];
    [|eexists; by eapply returns_text].
  destruct use_ocr; [|eexists; by eapply returns_no_text].
  destruct (ocr_total w b) as [Hf|[[e Hf]|(images & outs & Ho)]]; eexists.
  - by eapply returns_ocr_missing.
  - by eapply returns_ocr_failed.
  - by eapply returns_ocr_text.
Qed.

(** The function returns [s] exactly in the cases of [returns]. *)
Lemma extract_returns use_ocr s :
  outcome (extract_text_from_pdf_bytes w b use_ocr) = Ret s <->
  returns w b use_ocr s.
Proof.
  split; [|apply extract_sound].
  intros H. destruct (returns_total use_ocr) as [s' Hs'].
  pose proof (extract_sound _ _ Hs') as H'. congruence.
Qed.

End Extract.

(** ** The extractor: the claims *)

Lemma direct_trace_no_ocr b n :
  Forall (fun ev => is_ocr_event ev = false) (direct_trace b n).
Proof.
  unfold direct_trace. repeat constructor.
  induction n; simpl; by constructor.
Qed.

(** C1. For a PDF that parses (PyPDF2 being installed) and some page of
    which yields a character that is not whitespace, the extractor returns,
    whatever [use_ocr] is, the page texts (the empty string for a page
    without text) joined by newlines and stripped, and that string is not
    empty. *)
Theorem extract_returns_direct_text w b use_ocr texts :
  pdf_pages w b texts ->
  Exists (fun s => ~ blank s) (map or_empty texts) ->
  outcome (extract_text_from_pdf_bytes w b use_ocr)
  = Ret (strip (join nl (map or_empty texts))) /\
  strip (join nl (map or_empty texts)) <> [].
Proof.
  intros Hp Hex. apply strip_join_nonempty in Hex. split; [|exact Hex].
  by rewrite (extract_direct w b use_ocr texts Hp Hex).
Qed.

(** C9. When the page texts, joined and stripped, are not empty, the
    extractor returns that text for both values of [use_ocr], and nothing of
    the OCR path is in its log: neither import, no rasterization, no
    recognition. *)
Theorem direct_text_skips_ocr w b use_ocr texts :
  pdf_pages w b texts ->
  strip (join nl (map or_empty texts)) <> [] ->
  outcome (extract_text_from_pdf_bytes w b use_ocr)
  = Ret (strip (join nl (map or_empty texts))) /\
  Forall (fun ev => is_ocr_event ev = false)
         (trace (extract_text_from_pdf_bytes w b use_ocr)).
Proof.
  intros Hp Hne. rewrite (extract_direct w b use_ocr texts Hp Hne).
  split; [reflexivity | apply direct_trace_no_ocr].
Qed.

(** C7. For a PDF that parses and has no direct text, with [use_ocr] set
    and an OCR backend that works, the extractor returns the OCR outputs of
    the pages joined by newlines in page order; its log shows one
    rasterization of the document and then one recognition per image, in
    page order. *)
Theorem ocr_fallback_joins_pages w b texts images outs :
  pdf_pages w b texts ->
  strip (join nl (map or_empty texts)) = [] ->
  ocr_pages w b images outs ->
  outcome (extract_text_from_pdf_bytes w b true) = Ret (join nl outs) /\
  trace (extract_text_from_pdf_bytes w b true)
  = direct_trace b (length texts)
    ++ [EImportPdf2image; EImportPytesseract; EConvertFromBytes b]
    ++ map EImageToString images.
Proof.
  intros Hp He Ho.
  rewrite (extract_ocr w b texts Hp He), (ocr_text_of_ok w b images outs Ho).
  split; reflexivity.
Qed.

(** C2. The extractor never raises, for any bytes (the empty upload
    included) and either value of [use_ocr]: it always returns a string.
    A structural or parsing fault [e] becomes the message
    "PDF extraction error: e", a missing OCR dependency becomes the
    "OCR dependencies missing" message, and an OCR processing fault [e]
    becomes "OCR extraction failed: e". *)
Theorem extract_never_raises w b use_ocr :
  (exists s, outcome (extract_text_from_pdf_bytes w b use_ocr) = Ret s) /\
  (forall PdfReader e,
      PyPDF2 w = Some PdfReader -> read_fault PdfReader b e ->
      outcome (extract_text_from_pdf_bytes w b use_ocr)
      = Ret (msg_extraction_error e)) /\
  (forall texts,
      pdf_pages w b texts -> direct_text texts = [] -> use_ocr = true ->
      (ocr_import_fault w ->
       outcome (extract_text_from_pdf_bytes w b use_ocr) = Ret msg_ocr_missing) /\
      (forall e, ocr_fault w b e ->
       outcome (extract_text_from_pdf_bytes w b use_ocr)
       = Ret (msg_ocr_failed e))).
Proof.
  split; [|split].
  - destruct (returns_total w b use_ocr) as [s Hs].
    exists s. by apply extract_sound.
  - intros rd e Hw Hf. apply extract_sound. by eapply returns_extraction_error.
  - intros texts Hp He Ho. split.
    + intros Hf. apply extract_sound. by eapply returns_ocr_missing.
    + intros e Hf. apply extract_sound. by eapply returns_ocr_failed.
Qed.

Section ExtractorWitnesses.

Import Samples.

Lemma installed_pdf_pages texts scans :
  pdf_pages (installed texts scans) some_pdf texts.
Proof.
  eexists _, _, _. repeat split.
  induction texts; simpl; by constructor.
Defined.

Lemma installed_ocr_pages texts (scans : list str) :
  ocr_pages (installed texts scans) some_pdf
            (map N.of_nat (seq 0 (length scans))) scans.
Proof.
  eexists _, _. repeat split. simpl.
  assert (H : forall pre, Forall2
            (fun img out => match (pre ++ scans) !! N.to_nat img with
                            | Some out => Ret out
                            | None => Raise (Exception "TesseractError" (lit "no image"))
                            end = Ret out)
            (map N.of_nat (seq (length pre) (length scans))) scans).
  { induction scans as [|s scans IH]; intros pre; simpl; constructor.
    - rewrite Nat2N.id, lookup_app_r, Nat.sub_diag by lia. reflexivity.
    - specialize (IH (pre ++ [s])).
      rewrite <- app_assoc, length_app, Nat.add_1_r in IH. exact IH. }
  exact (H []).
Defined.

(** Three pages, the second one without text. *)
Lemma extract_returns_direct_text_witness :
  let texts := [Some (lit " ab "); None; Some (lit "c ")] in
  pdf_pages (installed texts []) some_pdf texts /\
  outcome (extract_text_from_pdf_bytes (installed texts []) some_pdf false)
  = Ret (lit "ab " ++ nl ++ nl ++ lit "c").
Proof.
  intros texts. split; [apply installed_pdf_pages|].
  apply (extract_returns_direct_text (installed texts []) some_pdf false texts).
  - apply installed_pdf_pages.
  - left. intros H. apply strip_nil_iff in H. vm_compute in H. discriminate H.
Defined.

(** A document with text, and OCR asked for. *)
Lemma direct_text_skips_ocr_witness :
  let texts := [Some (lit "Lease agreement")] in
  Forall (fun ev => is_ocr_event ev = false)
         (trace (extract_text_from_pdf_bytes (installed texts [scan_lease])
                                             some_pdf true)).
Proof.
  intros texts.
  apply (direct_text_skips_ocr (installed texts [scan_lease]) some_pdf true texts).
  - apply installed_pdf_pages.
  - vm_compute. discriminate.
Defined.

(** Two scanned pages. *)
Lemma ocr_fallback_joins_pages_witness :
  let w := installed [None; None] [scan_lease; lit "Page 2"] in
  outcome (extract_text_from_pdf_bytes w some_pdf true)
  = Ret (scan_lease ++ nl ++ lit "Page 2") /\
  trace (extract_text_from_pdf_bytes w some_pdf true)
  = [EPdfReader some_pdf; EPages; EExtractText; EExtractText;
     EImportPdf2image; EImportPytesseract; EConvertFromBytes some_pdf;
     EImageToString 0; EImageToString 1]%N.
Proof.
  intros w.
  apply (ocr_fallback_joins_pages w some_pdf [None; None] [0; 1]%N
           [scan_lease; lit "Page 2"]).
  - apply installed_pdf_pages.
  - vm_compute. reflexivity.
  - apply (installed_ocr_pages [None; None] [scan_lease; lit "Page 2"]).
Defined.

(** The empty upload: PyPDF2 refuses it, and the extractor reports that. *)
Lemma extract_never_raises_witness :
  read_fault (fun b => match b with
                       | [] => Raise EmptyFileError
                       | _ => Ret {| pages := Ret [] |}
                       end) [] EmptyFileError /\
  outcome (extract_text_from_pdf_bytes (installed [] []) [] false)
  = Ret (lit "PDF extraction error: Cannot read an empty file").
Proof.
  split; [by apply fault_reader|].
  exact (proj1 (proj2 (extract_never_raises (installed [] []) [] false))
           _ EmptyFileError eq_refl (fault_reader _ [] EmptyFileError eq_refl)).
Defined.

End ExtractorWitnesses.

(** ** The sentinel and the whitespace of the OCR path *)

(** No message of the function is empty or made of whitespace. *)
Lemma message_not_blank s : message s -> ~ blank s.
Proof.
  intros [|e| |e|] H; vm_compute in H; inversion H as [|c t Hc _]; discriminate Hc.
Qed.

Lemma pdf_pages_functional w b texts texts' :
  pdf_pages w b texts -> pdf_pages w b texts' -> texts = texts'.
Proof.
  intros (rd & reader & ps & Hw & Hr & Hp & Hall)
         (rd' & reader' & ps' & Hw' & Hr' & Hp' & Hall').
  rewrite Hw in Hw'. injection Hw' as <-.
  rewrite Hr in Hr'. injection Hr' as <-.
  rewrite Hp in Hp'. injection Hp' as <-.
  clear -Hall Hall'. revert texts' Hall'.
  induction Hall as [|page txt ps texts H _ IH]; intros texts' Hall';
    inversion Hall' as [|? txt' ? texts'' H' Hrest]; subst; [reflexivity|].
  f_equal; [congruence | by apply IH].
Qed.

(** C6, as amended. For a PDF that parses and whose page texts, joined and
    stripped, are empty, the extractor with [use_ocr = false] returns
    exactly the sentinel that asks for OCR. With [use_ocr = false] the
    returned string is that sentinel in one other case only: a PDF that
    parses and whose own stripped text reads as the sentinel does. *)
Theorem no_text_sentinel w b :
  (forall texts,
      pdf_pages w b texts -> strip (join nl (map or_empty texts)) = [] ->
      outcome (extract_text_from_pdf_bytes w b false) = Ret msg_no_text) /\
  (outcome (extract_text_from_pdf_bytes w b false) = Ret msg_no_text ->
   exists texts,
     pdf_pages w b texts /\
     (strip (join nl (map or_empty texts)) = [] \/
      strip (join nl (map or_empty texts)) = msg_no_text)).
Proof.
  split.
  - intros texts Hp He. by rewrite (extract_no_text w b texts Hp He).
  - intros H. apply extract_returns in H.
    remember msg_no_text as s eqn:Hs. remember false as o eqn:Ho.
    destruct H as [Hw | rd e Hw Hf | texts Hp Hne | texts Hp He Hu Hf
                  | texts images outs Hp He Hu Hocr | texts e Hp He Hu Hf
                  | texts Hp He Hu]; subst; try discriminate;
      try (vm_compute in Hs; discriminate Hs).
    + exists texts. split; [exact Hp | by right].
    + exists texts. split; [exact Hp | by left].
Qed.

(** C8, as amended. The text the extractor returns from the direct
    per-page path, for either value of [use_ocr], is trimmed: it neither
    begins nor ends with whitespace. *)
Theorem direct_text_is_trimmed w b use_ocr texts :
  pdf_pages w b texts ->
  strip (join nl (map or_empty texts)) <> [] ->
  exists s, outcome (extract_text_from_pdf_bytes w b use_ocr) = Ret s /\
            s = strip (join nl (map or_empty texts)) /\ trimmed s.
Proof.
  intros Hp Hne. eexists. split; [|split; [reflexivity|]].
  - by rewrite (extract_direct w b use_ocr texts Hp Hne).
  - apply strip_trimmed.
Qed.

(** C10, as amended. With [use_ocr] set, for a PDF that parses, has no
    direct text, and whose OCR run completes with outputs that are all
    empty or whitespace (no image at all included), the extractor returns
    the join of those outputs: an empty or whitespace-only string, which is
    none of its messages. With [use_ocr] set the returned string is the
    sentinel only when the document itself reads so: its stripped direct
    text, or the join of its OCR outputs, is that very string. *)
Theorem blank_ocr_output_returned w b :
  (forall texts images outs,
      pdf_pages w b texts -> strip (join nl (map or_empty texts)) = [] ->
      ocr_pages w b images outs -> Forall blank outs ->
      outcome (extract_text_from_pdf_bytes w b true) = Ret (join nl outs) /\
      blank (join nl outs) /\ ~ message (join nl outs)) /\
  (outcome (extract_text_from_pdf_bytes w b true) = Ret msg_no_text ->
   exists texts,
     pdf_pages w b texts /\
     (strip (join nl (map or_empty texts)) = msg_no_text \/
      strip (join nl (map or_empty texts)) = [] /\
      exists images outs, ocr_pages w b images outs /\
                          join nl outs = msg_no_text)).
Proof.
  split.
  - intros texts images outs Hp He Ho Hb.
    apply blank_join in Hb. repeat split.
    + by rewrite (extract_ocr w b texts Hp He), (ocr_text_of_ok w b images outs Ho).
    + exact Hb.
    + intros Hm. by apply (message_not_blank _ Hm).
  - intros H. apply extract_returns in H.
    remember msg_no_text as s eqn:Hs. remember true as o eqn:Hu'.
    destruct H as [Hw | rd e Hw Hf | texts Hp Hne | texts Hp He Hu Hf
                  | texts images outs Hp He Hu Hocr | texts e Hp He Hu Hf
                  | texts Hp He Hu]; subst; try discriminate;
      try (vm_compute in Hs; discriminate Hs).
    + exists texts. split; [exact Hp | by left].
    + exists texts. split; [exact Hp|]. right. split; [exact He|].
      by exists images, outs.
Qed.

Section SentinelWitnesses.

Import Samples.

(** A scanned page and a page of spaces: no text, and the sentinel. *)
Lemma no_text_sentinel_witness :
  let texts := [None; Some (lit "  ")] in
  pdf_pages (installed texts []) some_pdf texts /\
  outcome (extract_text_from_pdf_bytes (installed texts []) some_pdf false)
  = Ret (lit "No extractable text found. Try enabling OCR.").
Proof.
  intros texts. split; [apply installed_pdf_pages|].
  apply (proj1 (no_text_sentinel (installed texts []) some_pdf) texts).
  - apply installed_pdf_pages.
  - vm_compute. reflexivity.
Defined.

(** C6, the claim as stated fails: a document whose only page reads
    "No extractable text found. Try enabling OCR." parses, its stripped
    text is not empty, and with [use_ocr = false] the extractor returns
    that text, which is the sentinel string. *)
Lemma sentinel_returned_for_document_text :
  let w := installed [Some msg_no_text] [] in
  outcome (extract_text_from_pdf_bytes w some_pdf false) = Ret msg_no_text /\
  ~ (exists texts, pdf_pages w some_pdf texts /\
                   strip (join nl (map or_empty texts)) = []).
Proof.
  intros w. split; [vm_compute; reflexivity|].
  intros (texts & Hp & He).
  rewrite (pdf_pages_functional _ _ _ _ Hp
             (installed_pdf_pages [Some msg_no_text] [])) in He.
  vm_compute in He. discriminate He.
Qed.

(** A page of text between blank pages. *)
Lemma direct_text_is_trimmed_witness :
  let texts := [Some (lit " "); Some (lit " Lease agreement" ++ nl); None] in
  exists s,
    outcome (extract_text_from_pdf_bytes (installed texts []) some_pdf false)
    = Ret s /\
    s = lit "Lease agreement" /\ trimmed s.
Proof.
  intros texts.
  apply (direct_text_is_trimmed (installed texts []) some_pdf false texts).
  - apply installed_pdf_pages.
  - vm_compute. discriminate.
Defined.

(** C8, the claim as stated fails: for a scanned page that tesseract reads
    as "Lease", a line feed and a form feed, the extractor with [use_ocr]
    set returns the OCR output as it is, and that string ends with
    whitespace. *)
Lemma ocr_output_not_trimmed :
  let w := installed [None] [scan_lease] in
  ocr_pages w some_pdf [0%N] [scan_lease] /\
  outcome (extract_text_from_pdf_bytes w some_pdf true) = Ret scan_lease /\
  ~ trimmed scan_lease.
Proof.
  intros w. split; [apply (installed_ocr_pages [None] [scan_lease])|].
  split; [vm_compute; reflexivity|].
  intros H. specialize (H 12%N (or_intror eq_refl)). discriminate H.
Qed.

(** A document without pages, and a scan of two empty sheets. *)
Lemma blank_ocr_output_returned_witness :
  outcome (extract_text_from_pdf_bytes (installed [] []) some_pdf true) = Ret [] /\
  outcome (extract_text_from_pdf_bytes
             (installed [None; None] [[12%N]; lit " " ++ [12%N]]) some_pdf true)
  = Ret [12; 10; 32; 12]%N.
Proof.
  split.
  - apply (proj1 (blank_ocr_output_returned (installed [] []) some_pdf)
             [] [] []).
    + apply installed_pdf_pages.
    + reflexivity.
    + apply (installed_ocr_pages [] []).
    + constructor.
  - apply (proj1 (blank_ocr_output_returned
                    (installed [None; None] [[12%N]; lit " " ++ [12%N]]) some_pdf)
             [None; None] [0; 1]%N [[12%N]; lit " " ++ [12%N]]).
    + apply installed_pdf_pages.
    + reflexivity.
    + apply (installed_ocr_pages [None; None] [[12%N]; lit " " ++ [12%N]]).
    + repeat constructor.
Defined.

(** C10, the claim as stated fails: the document whose only page reads
    "No extractable text found. Try enabling OCR." gives that string with
    [use_ocr] set as well. *)
Lemma sentinel_returned_with_ocr_set :
  let w := installed [Some msg_no_text] [] in
  pdf_pages w some_pdf [Some msg_no_text] /\
  outcome (extract_text_from_pdf_bytes w some_pdf true) = Ret msg_no_text.
Proof.
  intros w. split; [apply installed_pdf_pages | vm_compute; reflexivity].
Qed.

End SentinelWitnesses.

(** ** Chunking *)

Section Chunks.

Variable m : nat.
Hypothesis m_pos : 0 < m.

(** How many chunks of size [m] a text of length [n] needs. *)
Lemma chunk_count_bounds n :
  let k := (n + (m - 1)) / m in n <= k * m /\ (0 < k -> (k - 1) * m < n).
Proof.
  intros k. subst k.
  pose proof (Nat.div_mod_eq (n + (m - 1)) m) as Hd.
  pose proof (Nat.mod_upper_bound (n + (m - 1)) m ltac:(lia)) as Hm.
  set (q := (n + (m - 1)) / m) in *. set (r := (n + (m - 1)) mod m) in *.
  split; [nia|]. intros Hq. destruct q as [|q]; [lia|]. simpl. nia.
Qed.

Lemma range_0 n :
  range 0 n m = map (fun k => k * m) (seq 0 ((n + (m - 1)) / m)).
Proof. unfold range. by rewrite Nat.sub_0_r. Qed.

(** The first [k] slices of size [m], side by side, are the first [k * m]
    characters. *)
Lemma concat_slices (text : str) k :
  concat (map (fun i => slice text i (i + m)) (map (fun k => k * m) (seq 0 k)))
  = take (k * m) text.
Proof.
  induction k as [|k IH]; [reflexivity|].
  rewrite seq_S, !map_app, concat_app, IH. simpl. rewrite app_nil_r.
  unfold slice. replace (k * m + m - k * m) with m by lia.
  rewrite take_take_drop. f_equal. lia.
Qed.

Lemma lookup_slices (text : str) k i c :
  map (fun i => slice text i (i + m)) (map (fun k => k * m) (seq 0 k)) !! i = Some c ->
  i < k /\ c = take m (drop (i * m) text).
Proof.
  rewrite !list_lookup_fmap. intros H.
  destruct (seq 0 k !! i) as [j|] eqn:Hj; [|discriminate].
  apply lookup_seq in Hj as [-> Hi]. simpl in H. injection H as <-.
  split; [exact Hi|]. unfold slice. f_equal. lia.
Qed.

End Chunks.

Lemma chunks_slices (text : str) :
  chunks text
  = map (fun i => slice text i (i + MAX_CHUNK))
        (map (fun k => k * MAX_CHUNK)
             (seq 0 ((length text + (MAX_CHUNK - 1)) / MAX_CHUNK))).
Proof. unfold chunks. by rewrite range_0. Qed.

Lemma MAX_CHUNK_pos : 0 < MAX_CHUNK.
Proof. unfold MAX_CHUNK. lia. Qed.

(** C3. With the chunk length 1000, the chunks of a text are contiguous
    slices of it, in order and without overlap: chunk [i] is
    [text[1000*i : 1000*i + 1000]], the chunks side by side are the text,
    no chunk is longer than 1000, and every chunk but the last has length
    1000. A text of length 2500 has the three chunks of lengths 1000, 1000
    and 500. *)
Theorem chunks_partition (text : str) :
  concat (chunks text) = text /\
  Forall (fun c => length c <= 1000) (chunks text) /\
  (forall i c, chunks text !! i = Some c ->
               c = take 1000 (drop (1000 * i) text) /\
               (S i < length (chunks text) -> length c = 1000)) /\
  (length text = 2500 -> map length (chunks text) = [1000; 1000; 500]).
Proof.
  pose proof MAX_CHUNK_pos as Hpos.
  pose proof (chunk_count_bounds MAX_CHUNK Hpos (length text)) as [Hup Hlow].
  assert (Hlen : length (chunks text)
                 = (length text + (MAX_CHUNK - 1)) / MAX_CHUNK).
  { by rewrite chunks_slices, !length_map, length_seq. }
  assert (Hi : forall i c, chunks text !! i = Some c ->
                 i < length (chunks text) /\
                 c = take MAX_CHUNK (drop (i * MAX_CHUNK) text)).
  { intros i c H. rewrite Hlen. rewrite chunks_slices in H.
    by apply lookup_slices in H. }
  split; [|split; [|split]].
  - rewrite chunks_slices, (concat_slices MAX_CHUNK Hpos). by apply take_ge.
  - apply Forall_lookup. intros i c H. apply Hi in H as [_ ->].
    rewrite length_take. change MAX_CHUNK with 1000. lia.
  - intros i c H. apply Hi in H as [Hlt ->].
    split; [by rewrite (Nat.mul_comm 1000 i)|].
    intros HS. rewrite length_take, length_drop.
    rewrite Hlen in HS.
    assert ((i + 1) * MAX_CHUNK < length text + MAX_CHUNK); [|unfold MAX_CHUNK in *; lia].
    specialize (Hlow ltac:(lia)).
    assert (i + 1 <= (length text + (MAX_CHUNK - 1)) / MAX_CHUNK - 1) by lia.
    nia.
  - intros H. unfold chunks. rewrite H.
    change (range 0 2500 MAX_CHUNK) with [0; 1000; 2000].
    unfold slice. cbn [map]. rewrite !length_take, !length_drop, H.
    reflexivity.
Qed.

(** A text of 2500 characters. *)
Lemma chunks_partition_witness :
  length (repeat 97%N 2500) = 2500 /\
  map length (chunks (repeat 97%N 2500)) = [1000; 1000; 500].
Proof.
  split; [apply repeat_length|].
  apply (proj2 (proj2 (proj2 (chunks_partition (repeat 97%N 2500))))).
  apply repeat_length.
Defined.

(** ** Logs without a kind of event *)

Section Quiet.

Variable P : event -> bool.

Lemma quiet_ret {A} (a : A) : quiet P (ret a).
Proof. constructor. Qed.

Lemma quiet_raise {A} e : quiet P (raise e : M A).
Proof. constructor. Qed.

Lemma quiet_pure {A} (r : result A) : quiet P (pure r).
Proof. constructor. Qed.

Lemma quiet_call {A} ev (r : result A) : P ev = false -> quiet P (call ev r).
Proof. intros H. by repeat constructor. Qed.

Lemma quiet_emit ev : P ev = false -> quiet P (emit ev).
Proof. intros H. by repeat constructor. Qed.

Lemma quiet_bind {A B} (m : M A) (k : A -> M B) :
  quiet P m -> (forall a, quiet P (k a)) -> quiet P (bind m k).
Proof.
  unfold quiet. destruct m as [t [a|e]]; simpl; intros Hm Hk; [|exact Hm].
  specialize (Hk a). destruct (k a) as [t' r]. simpl in *.
  apply Forall_app. by split.
Qed.

Lemma quiet_try_except {A} (m : M A) h :
  quiet P m -> (forall e, quiet P (h e)) -> quiet P (try_except m h).
Proof.
  unfold quiet. destruct m as [t [a|e]]; simpl; intros Hm Hh; [exact Hm|].
  specialize (Hh e). destruct (h e) as [t' r]. simpl in *.
  apply Forall_app. by split.
Qed.

Lemma quiet_mapM {A B} (f : A -> M B) l :
  (forall x, quiet P (f x)) -> quiet P (mapM f l).
Proof.
  intros Hf. induction l as [|x l IH]; simpl; [apply quiet_ret|].
  apply quiet_bind; [apply Hf|]. intros y.
  apply quiet_bind; [apply IH|]. intros ys. apply quiet_ret.
Qed.

Lemma quiet_when c m : quiet P m -> quiet P (when c m).
Proof. destruct c; [done | intros _; apply quiet_ret]. Qed.

End Quiet.

(** Going through a computation built from the combinators above. *)
Ltac quiet_step :=
  first
    [ apply quiet_ret | apply quiet_raise | apply quiet_pure
    | apply quiet_call; reflexivity | apply quiet_emit; reflexivity
    | apply quiet_when
    | apply quiet_mapM; intros ?
    | apply quiet_bind; [|intros ?]
    | apply quiet_try_except; [|intros ?]
    | match goal with
      | |- quiet _ (match ?x with _ => _ end) => destruct x
      | |- quiet _ (let (_, _) := ?x in _) => destruct x
      end ].
Ltac quiet := repeat quiet_step.

(** The extractor has nothing to do with the analysis backends. *)
Lemma extract_quiet task f w b use_ocr :
  quiet (is_pipeline_event task f) (extract_text_from_pdf_bytes w b use_ocr).
Proof.
  unfold extract_text_from_pdf_bytes, read_text_pages, ocr_text_of,
    page_step, ocr_step.
  quiet.
Qed.

(** Calling a backend logs that call and nothing else. *)
Lemma py_call_quiet task f who g arg :
  who <> f -> quiet (is_pipeline_event task f) (py_call who g arg).
Proof.
  intros Hne. destruct g; simpl; try apply quiet_raise.
  apply quiet_call. simpl. by apply bool_decide_eq_false.
Qed.

(** ** The analysis backends *)

Lemma as_strs_PStr (ss : list str) : as_strs (map PStr ss) = Ret ss.
Proof. induction ss as [|s ss IH]; simpl; [reflexivity | by rewrite IH]. Qed.

Lemma Forall2_map_r_In {A B} (R : A -> B -> Prop) (g : A -> B) (l : list A) :
  (forall x, In x l -> R x (g x)) -> Forall2 R l (map g l).
Proof.
  induction l as [|x l IH]; intros H; simpl; constructor.
  - apply H. by left.
  - apply IH. intros y Hy. apply H. by right.
Qed.

(** C4. When [summarize_text] is not provided and the summarization
    pipeline is, and the pipeline answers every chunk [c] of the text with
    a summary [summary c], the summary is those of the chunks, in the order
    of the chunks, joined by blank lines, and the pipeline has been called
    once on each chunk, in that order. For three chunks [c0], [c1], [c2]
    it is [summary c0], a blank line, [summary c1], a blank line,
    [summary c2]. *)
Theorem pipeline_summaries_joined (b : Backends) (hf : str -> result pyobj)
    (summary : str -> str) (extracted : str) :
  truthy (summarize_fn b) = false ->
  hf_summarizer b = PFunction hf ->
  (forall c, In c (chunks extracted) ->
             exists out, hf c = Ret out /\
                         summary_text out = Ret (PStr (summary c))) ->
  summarize b extracted
  = (map (ECall HfSummarizer) (chunks extracted),
     Ret (PStr (join (nl ++ nl) (map summary (chunks extracted))))) /\
  (forall c0 c1 c2,
      chunks extracted = [c0; c1; c2] ->
      outcome (summarize b extracted)
      = Ret (PStr (summary c0 ++ (nl ++ nl) ++ summary c1 ++ (nl ++ nl)
                   ++ summary c2))).
Proof.
  intros Hlocal Hhf Hsum.
  assert (Heq : summarize b extracted
                = (map (ECall HfSummarizer) (chunks extracted),
                   Ret (PStr (join (nl ++ nl) (map summary (chunks extracted)))))).
  { unfold summarize. rewrite Hlocal, Hhf. cbn [truthy].
    set (step := fun c => bind (py_call HfSummarizer (PFunction hf) c) _).
    assert (Hstep : forall c, In c (chunks extracted) ->
              step c = ([ECall HfSummarizer c], Ret (PStr (summary c)))).
    { intros c Hc. destruct (Hsum c Hc) as (out & Hout & Htext).
      unfold step. simpl. rewrite Hout. simpl. by rewrite Htext. }
    rewrite (mapM_ok step _ (map (fun c => PStr (summary c)) (chunks extracted))).
    2:{ apply Forall2_map_r_In. intros c Hc. by rewrite (Hstep c Hc). }
    replace (concat (map (fun c => trace (step c)) (chunks extracted)))
      with (map (ECall HfSummarizer) (chunks extracted)).
    2:{ clear -Hstep. induction (chunks extracted) as [|c l IH]; [reflexivity|].
        simpl. rewrite (Hstep c) by (by left). simpl. f_equal.
        apply IH. intros c' Hc'. apply Hstep. by right. }
    cbn [bind]. unfold pure, py_join.
    rewrite <- (map_map summary PStr), as_strs_PStr. simpl.
    by rewrite app_nil_r. }
  split; [exact Heq|].
  intros c0 c1 c2 H3. rewrite Heq, H3. reflexivity.
Qed.

(** A text of 2500 characters, summarized by the sample model. *)
Lemma pipeline_summaries_joined_witness :
  let text := repeat 97%N 1000 ++ repeat 98%N 1000 ++ repeat 99%N 500 in
  let b := {| summarize_fn := PNone; ner_fn := PNone;
              hf_summarizer := PFunction Samples.summarizer_model;
              hf_ner := PNone |} in
  outcome (summarize b text)
  = Ret (PStr (lit "aaa" ++ (nl ++ nl) ++ lit "bbb" ++ (nl ++ nl) ++ lit "ccc")).
Proof.
  intros text b.
  assert (H : forall c, In c (chunks text) ->
            exists out, Samples.summarizer_model c = Ret out /\
                        summary_text out = Ret (PStr (Samples.headline 3 c))).
  { intros c _. eexists. split; [reflexivity|].
    unfold summary_text. simpl. by rewrite lookup_singleton_eq. }
  apply (proj2 (pipeline_summaries_joined b Samples.summarizer_model
                  (Samples.headline 3) text eq_refl eq_refl H)
          (repeat 97%N 1000) (repeat 98%N 1000) (repeat 99%N 500)).
  vm_compute. reflexivity.
Defined.

(** *** Resolution *)

Lemma load_repo_functions_ok w names :
  candidate_exists w = Ret true -> exec_module w = Ret names ->
  load_repo_functions w
  = ([ECandidateExists; EExecModule],
     Ret (getattr names (lit "summarize_text"),
          getattr names (lit "extract_entities"))).
Proof. intros He Hm. unfold load_repo_functions. by rewrite He, Hm. Qed.

(** The pipelines are looked for without a fault reaching the script, and
    a capability that has its repo function gets no pipeline. *)
Lemma load_hf_pipelines_returns w sfn nfn :
  exists hf, outcome (load_hf_pipelines w sfn nfn) = Ret hf /\
             (truthy sfn = true -> fst hf = PNone) /\
             (truthy nfn = true -> snd hf = PNone).
Proof.
  unfold load_hf_pipelines.
  destruct (truthy sfn), (truthy nfn); cbn [negb orb];
    try (destruct (transformers w) as [pipeline|e]; simpl;
         try (destruct (pipeline (lit "summarization")); simpl);
         try (destruct (pipeline (lit "ner")); simpl));
    eexists; (split; [reflexivity|]); split; intros;
    first [reflexivity | discriminate].
Qed.

(** No pipeline is built for a capability that has its repo function. *)
Lemma load_hf_pipelines_quiet_summarize w sfn nfn :
  truthy sfn = true ->
  quiet (is_pipeline_event (lit "summarization") HfSummarizer)
        (load_hf_pipelines w sfn nfn).
Proof.
  intros H. unfold load_hf_pipelines. rewrite H.
  destruct (truthy nfn); cbn [negb orb]; quiet.
Qed.

Lemma load_hf_pipelines_quiet_ner w sfn nfn :
  truthy nfn = true ->
  quiet (is_pipeline_event (lit "ner") HfNer) (load_hf_pipelines w sfn nfn).
Proof.
  intros H. unfold load_hf_pipelines. rewrite H.
  destruct (truthy sfn); cbn [negb orb]; quiet.
Qed.

Lemma quiet_bind_Ret {A B} P (m : M A) (k : A -> M B) a :
  outcome m = Ret a -> quiet P m -> quiet P (k a) -> quiet P (bind m k).
Proof.
  intros Hm Hq Hk. rewrite (bind_Ret m k a Hm). unfold quiet in *. simpl.
  apply Forall_app. by split.
Qed.

(** What the script binds when [code/analysis.py] exists and loads. *)
Lemma resolve_backends_ok w names :
  candidate_exists w = Ret true -> exec_module w = Ret names ->
  exists b,
    outcome (resolve_backends w) = Ret b /\
    summarize_fn b = getattr names (lit "summarize_text") /\
    ner_fn b = getattr names (lit "extract_entities") /\
    (truthy (summarize_fn b) = true -> hf_summarizer b = PNone) /\
    (truthy (ner_fn b) = true -> hf_ner b = PNone) /\
    trace (resolve_backends w)
    = [ECandidateExists; EExecModule]
      ++ trace (load_hf_pipelines w (summarize_fn b) (ner_fn b)).
Proof.
  intros He Hm. unfold resolve_backends.
  rewrite (load_repo_functions_ok w names He Hm). cbn [bind fst snd].
  destruct (load_hf_pipelines_returns w
              (getattr names (lit "summarize_text"))
              (getattr names (lit "extract_entities"))) as (hf & Hhf & Hs & Hn).
  destruct (load_hf_pipelines w _ _) as [t r] eqn:Hl. simpl in Hhf. subst r.
  eexists. split; [reflexivity|]. simpl. rewrite app_nil_r, Hl.
  by repeat split.
Qed.

(** *** The actions *)

Lemma summarize_local b f text :
  summarize_fn b = PFunction f ->
  summarize b text = ([ECall LocalSummarize text], f text).
Proof. intros H. unfold summarize. rewrite H. reflexivity. Qed.

Lemma extract_entities_local b g text :
  ner_fn b = PFunction g ->
  extract_entities b text = ([ECall LocalNer text], g text).
Proof. intros H. unfold extract_entities. rewrite H. reflexivity. Qed.

Lemma summarize_quiet_local task b text :
  truthy (summarize_fn b) = true ->
  quiet (is_pipeline_event task HfSummarizer) (summarize b text).
Proof. intros H. unfold summarize. rewrite H. by apply py_call_quiet. Qed.

Lemma summarize_quiet_ner task b text :
  quiet (is_pipeline_event task HfNer) (summarize b text).
Proof. unfold summarize. quiet; by apply py_call_quiet. Qed.

Lemma extract_entities_quiet_local task b text :
  truthy (ner_fn b) = true ->
  quiet (is_pipeline_event task HfNer) (extract_entities b text).
Proof. intros H. unfold extract_entities. rewrite H. by apply py_call_quiet. Qed.

Lemma extract_entities_quiet_summarize task b text :
  quiet (is_pipeline_event task HfSummarizer) (extract_entities b text).
Proof. unfold extract_entities. quiet; by apply py_call_quiet. Qed.

(** *** One run of the script *)

Lemma script_quiet_summarize w ui names f :
  candidate_exists w = Ret true -> exec_module w = Ret names ->
  names !! lit "summarize_text" = Some (PFunction f) ->
  quiet (is_pipeline_event (lit "summarization") HfSummarizer) (script w ui).
Proof.
  intros He Hm Hf.
  destruct (resolve_backends_ok w names He Hm)
    as (b & Hb & Hs & _ & _ & _ & Ht).
  assert (Htrue : truthy (summarize_fn b) = true).
  { rewrite Hs. unfold getattr. by rewrite Hf. }
  unfold script. apply (quiet_bind_Ret _ _ _ b Hb).
  - unfold quiet. rewrite Ht. repeat constructor.
    by apply load_hf_pipelines_quiet_summarize.
  - quiet; auto using extract_quiet, summarize_quiet_local,
               extract_entities_quiet_summarize.
Qed.

Lemma script_quiet_ner w ui names g :
  candidate_exists w = Ret true -> exec_module w = Ret names ->
  names !! lit "extract_entities" = Some (PFunction g) ->
  quiet (is_pipeline_event (lit "ner") HfNer) (script w ui).
Proof.
  intros He Hm Hg.
  destruct (resolve_backends_ok w names He Hm)
    as (b & Hb & _ & Hn & _ & _ & Ht).
  assert (Htrue : truthy (ner_fn b) = true).
  { rewrite Hn. unfold getattr. by rewrite Hg. }
  unfold script. apply (quiet_bind_Ret _ _ _ b Hb).
  - unfold quiet. rewrite Ht. repeat constructor.
    by apply load_hf_pipelines_quiet_ner.
  - quiet; auto using extract_quiet, summarize_quiet_ner,
               extract_entities_quiet_local.
Qed.

(** C5. When [code/analysis.py] exists, loads, and defines
    [summarize_text] as a function [f], the script binds [f] and builds no
    summarization pipeline; the Summarize action calls [f] on the whole
    text and its value is what [f] gives; and in a whole run of the script
    the summarization pipeline is neither built nor called. The same holds
    for [extract_entities] and the entity pipeline. None of this depends on
    whether transformers is installed. *)
Theorem local_function_wins w ui names :
  candidate_exists w = Ret true -> exec_module w = Ret names ->
  (forall f,
      names !! lit "summarize_text" = Some (PFunction f) ->
      (exists b, outcome (resolve_backends w) = Ret b /\
                 summarize_fn b = PFunction f /\ hf_summarizer b = PNone /\
                 forall text,
                   summarize b text = ([ECall LocalSummarize text], f text)) /\
      quiet (is_pipeline_event (lit "summarization") HfSummarizer)
            (script w ui)) /\
  (forall g,
      names !! lit "extract_entities" = Some (PFunction g) ->
      (exists b, outcome (resolve_backends w) = Ret b /\
                 ner_fn b = PFunction g /\ hf_ner b = PNone /\
                 forall text,
                   extract_entities b text = ([ECall LocalNer text], g text)) /\
      quiet (is_pipeline_event (lit "ner") HfNer) (script w ui)).
Proof.
  intros He Hm.
  destruct (resolve_backends_ok w names He Hm)
    as (b & Hb & Hs & Hn & Hhs & Hhn & _).
  split.
  - intros f Hf. split; [|by eapply script_quiet_summarize].
    assert (Hfn : summarize_fn b = PFunction f).
    { rewrite Hs. unfold getattr. by rewrite Hf. }
    exists b. repeat split; [exact Hb | exact Hfn | |].
    + apply Hhs. by rewrite Hfn.
    + intros text. by apply summarize_local.
  - intros g Hg. split; [|by eapply script_quiet_ner].
    assert (Hfn : ner_fn b = PFunction g).
    { rewrite Hn. unfold getattr. by rewrite Hg. }
    exists b. repeat split; [exact Hb | exact Hfn | |].
    + apply Hhn. by rewrite Hfn.
    + intros text. by apply extract_entities_local.
Qed.

(** A run with [code/analysis.py] defining both functions and transformers
    installed as well: both buttons pressed, no pipeline event. *)
Lemma local_function_wins_witness :
  let w := Samples.with_backends Samples.both_functions
             [Some (lit "Lease agreement, 2024")] in
  let ui := {| uploaded := Some Samples.some_pdf; use_ocr := false;
               show_raw := false; summarize_clicked := true;
               entities_clicked := true |} in
  quiet (is_pipeline_event (lit "summarization") HfSummarizer) (script w ui) /\
  quiet (is_pipeline_event (lit "ner") HfNer) (script w ui).
Proof.
  intros w ui.
  pose proof (local_function_wins w ui Samples.both_functions eq_refl eq_refl)
    as [Hs Hn].
  split.
  - apply (Hs Samples.repo_summarize). vm_compute. reflexivity.
  - apply (Hn Samples.repo_entities). vm_compute. reflexivity.
Defined.

(** * Further properties of the script *)

(** ** Loops that stop, with their log *)

Lemma mapM_raise_trace {A B} (f : A -> M B) before after x ys e :
  Forall2 (fun x y => outcome (f x) = Ret y) before ys ->
  outcome (f x) = Raise e ->
  mapM f (before ++ x :: after)
  = (concat (map (fun x => trace (f x)) before) ++ trace (f x), Raise e).
Proof.
  intros Hb Hx. induction Hb as [|x' y l ys' Hx' _ IH]; simpl.
  - by rewrite (bind_Raise _ _ _ Hx).
  - rewrite (bind_Ret _ _ _ Hx'), IH. simpl. by rewrite app_assoc.
Qed.

Lemma quiet_not_Exists {A} P (m : M A) :
  quiet P m -> ~ Exists (fun ev => P ev = true) (trace m).
Proof.
  unfold quiet. intros Hq Hex. apply Exists_exists in Hex as (ev & Hin & Hev).
  rewrite Forall_forall in Hq. specialize (Hq ev Hin). congruence.
Qed.

Lemma read_text_pages_quiet_ocr rd b : quiet is_ocr_event (read_text_pages rd b).
Proof. unfold read_text_pages, page_step. quiet. Qed.

(** ** The extractor: when OCR runs, and what comes back without it *)

(** X1. Whatever the libraries do, the OCR path (its imports,
    rasterization, recognition) is entered only when [use_ocr] is set, the
    document has parsed, and its stripped text is empty. *)
Theorem ocr_only_after_empty_parse w b use_ocr :
  Exists (fun ev => is_ocr_event ev = true)
         (trace (extract_text_from_pdf_bytes w b use_ocr)) ->
  use_ocr = true /\
  exists texts, pdf_pages w b texts /\
                strip (join nl (map or_empty texts)) = [].
Proof.
  intros Hex.
  destruct (PyPDF2 w) as [rd|] eqn:Hw.
  2:{ exfalso. unfold extract_text_from_pdf_bytes in Hex. rewrite Hw in Hex.
      by apply Exists_nil in Hex. }
  destruct (read_text_pages_total b rd)
    as [[e Hf]|(reader & ps & texts & Hr & Hp & Hall)].
  - exfalso. revert Hex. apply quiet_not_Exists.
    unfold extract_text_from_pdf_bytes. rewrite Hw.
    apply (quiet_bind_Ret _ _ _ _ (read_text_pages_fault b rd e Hf));
      [apply read_text_pages_quiet_ocr | apply quiet_ret].
  - assert (Hpdf : pdf_pages w b texts) by (by exists rd, reader, ps).
    destruct (decide (direct_text texts = [])) as [He|Hne].
    + destruct use_ocr;
        [split; [reflexivity | exists texts; split; [exact Hpdf | exact He]]|].
      exfalso. revert Hex. apply quiet_not_Exists. unfold quiet.
      rewrite (extract_no_text w b texts Hpdf He). apply direct_trace_no_ocr.
    + exfalso. revert Hex. apply quiet_not_Exists. unfold quiet.
      rewrite (extract_direct w b use_ocr texts Hpdf Hne).
      apply direct_trace_no_ocr.
Qed.


(** X3. Recognition stops at the first image that fails: the images after
    it are never handed to tesseract, the outputs of the images before it
    are dropped, and the result is the error report alone. *)
Theorem recognition_stops_at_first_fault w b texts convert image_to_string
    before img after outs e :
  pdf_pages w b texts ->
  strip (join nl (map or_empty texts)) = [] ->
  pdf2image w = Ret convert -> pytesseract w = Ret image_to_string ->
  convert b = Ret (before ++ img :: after) ->
  Forall2 (fun img out => image_to_string img = Ret out) before outs ->
  image_to_string img = Raise e ->
  extract_text_from_pdf_bytes w b true
  = (direct_trace b (length texts)
     ++ [EImportPdf2image; EImportPytesseract; EConvertFromBytes b]
     ++ map EImageToString (before ++ [img]),
     Ret (msg_ocr_failed e)).
Proof.
  intros Hp He Hc Hi Hb Hall Hx.
  rewrite (extract_ocr w b texts Hp He). unfold ocr_text_of.
  rewrite Hc, Hi. simpl. rewrite Hb. simpl.
  rewrite (mapM_raise_trace (ocr_step image_to_string) before after img outs e
             Hall Hx).
  simpl. rewrite app_nil_r, map_app.
  replace (concat (map (fun x => [EImageToString x]) before))
    with (map EImageToString before); [reflexivity|].
  clear. induction before as [|i l IH]; [reflexivity | simpl; by f_equal].
Qed.

(** X4. Reading stops at the first page that fails: the pages after it
    are never read, the text of the pages before it is dropped, OCR is not
    tried even when asked for, and the result is the error report alone. *)
Theorem reading_stops_at_first_fault w b use_ocr PdfReader reader
    before page after texts e :
  PyPDF2 w = Some PdfReader ->
  PdfReader b = Ret reader ->
  pages reader = Ret (before ++ page :: after) ->
  Forall2 (fun page txt => extract_text page = Ret txt) before texts ->
  extract_text page = Raise e ->
  extract_text_from_pdf_bytes w b use_ocr
  = (EPdfReader b :: EPages :: repeat EExtractText (S (length before)),
     Ret (msg_extraction_error e)).
Proof.
  intros Hw Hr Hp Hall Hx.
  unfold extract_text_from_pdf_bytes, read_text_pages.
  rewrite Hw, Hr. simpl. rewrite Hp. simpl.
  apply page_step_Raise in Hx.
  rewrite (mapM_raise_trace page_step before after page _ e
             (page_steps_ok _ _ Hall) Hx).
  rewrite page_steps_trace, page_step_trace. simpl. rewrite !app_nil_r.
  do 3 f_equal. clear. induction before; simpl; [reflexivity | by f_equal].
Qed.

Section ExtractorExtraWitnesses.

Import Samples.

(** A scanned page, with OCR asked for. *)
Lemma ocr_only_after_empty_parse_witness :
  let w := installed [None] [scan_lease] in
  Exists (fun ev => is_ocr_event ev = true)
         (trace (extract_text_from_pdf_bytes w some_pdf true)) /\
  exists texts, pdf_pages w some_pdf texts /\
                strip (join nl (map or_empty texts)) = [].
Proof.
  intros w.
  assert (H : Exists (fun ev => is_ocr_event ev = true)
                     (trace (extract_text_from_pdf_bytes w some_pdf true))).
  { do 3 apply Exists_cons_tl. apply Exists_cons_hd. reflexivity. }
  split; [exact H|].
  apply (ocr_only_after_empty_parse w some_pdf true H).
Defined.

(** Three scanned pages, the second of which tesseract cannot read. *)
Lemma recognition_stops_at_first_fault_witness :
  let w := with_images [None; None; None] [0; 1; 2]%N [scan_lease] in
  extract_text_from_pdf_bytes w some_pdf true
  = ([EPdfReader some_pdf; EPages; EExtractText; EExtractText; EExtractText;
      EImportPdf2image; EImportPytesseract; EConvertFromBytes some_pdf;
      EImageToString 0; EImageToString 1]%N,
     Ret (lit "OCR extraction failed: no image")).
Proof.
  intros w.
  eapply (recognition_stops_at_first_fault w some_pdf [None; None; None])
    with (before := [0%N]) (img := 1%N) (after := [2%N])
         (outs := [scan_lease])
         (e := Exception "TesseractError" (lit "no image")).
  - apply (installed_pdf_pages [None; None; None] [scan_lease]).
  - reflexivity.
  - reflexivity.
  - reflexivity.
  - reflexivity.
  - by repeat constructor.
  - reflexivity.
Defined.

(** Three pages, the second of which PyPDF2 cannot decode. *)
Lemma reading_stops_at_first_fault_witness :
  let w := with_pages [text_page (Some (lit "Lease")); broken_page;
                       text_page (Some (lit "Annex"))] in
  extract_text_from_pdf_bytes w some_pdf true
  = ([EPdfReader some_pdf; EPages; EExtractText; EExtractText],
     Ret (lit "PDF extraction error: Invalid stream")).
Proof.
  intros w.
  eapply (reading_stops_at_first_fault w some_pdf true)
    with (before := [text_page (Some (lit "Lease"))]) (page := broken_page)
         (after := [text_page (Some (lit "Annex"))])
         (texts := [Some (lit "Lease")])
         (e := Exception "PdfReadError" (lit "Invalid stream")).
  - reflexivity.
  - reflexivity.
  - reflexivity.
  - by repeat constructor.
  - reflexivity.
Defined.

End ExtractorExtraWitnesses.

(** ** Backend resolution: faults and what they leave bound *)

Lemma load_repo_functions_returns w :
  exists repo, outcome (load_repo_functions w) = Ret repo.
Proof.
  unfold load_repo_functions.
  destruct (candidate_exists w) as [[|]|e]; simpl;
    try destruct (exec_module w) as [names|e]; simpl; eexists; reflexivity.
Qed.

(** X5. Resolution never raises, whatever is installed, and it never
    leaves a capability with both a repo function and a pipeline: where the
    repo function is bound, the pipeline stays [None]. *)
Theorem resolve_backends_never_raises w :
  exists b, outcome (resolve_backends w) = Ret b /\
            (truthy (summarize_fn b) = true -> hf_summarizer b = PNone) /\
            (truthy (ner_fn b) = true -> hf_ner b = PNone).
Proof.
  unfold resolve_backends.
  destruct (load_repo_functions_returns w) as [repo Hrepo].
  rewrite (bind_Ret _ _ _ Hrepo). simpl.
  destruct (load_hf_pipelines_returns w (fst repo) (snd repo))
    as (hf & Hhf & Hs & Hn).
  rewrite (bind_Ret _ _ _ Hhf). simpl. eexists. split; [reflexivity|].
  simpl. by split.
Qed.

(** X6. When [code/analysis.py] is absent nothing is loaded and nothing is
    warned about; when loading it fails with [e], the fault is shown as one
    warning that carries [e]. Either way both repo functions stay [None]
    and the script goes on. *)
Theorem load_repo_functions_fallback w :
  (candidate_exists w = Ret false ->
   load_repo_functions w = ([ECandidateExists], Ret (PNone, PNone))) /\
  (forall e,
      candidate_exists w = Ret true -> exec_module w = Raise e ->
      load_repo_functions w
      = ([ECandidateExists; EExecModule;
          EWarning (lit "Could not import analysis functions: " ++ exn_str e)],
         Ret (PNone, PNone))).
Proof.
  unfold load_repo_functions. split.
  - intros He. by rewrite He.
  - intros e He Hm. by rewrite He, Hm.
Qed.

(** X7. When the summarization pipeline cannot be built, the entity
    pipeline is not even asked for: both stay [None], with one warning,
    also when [extract_entities] is missing and its pipeline would load. *)
Theorem summarizer_fault_disables_ner w sfn nfn pipeline e :
  truthy sfn = false ->
  transformers w = Ret pipeline ->
  pipeline (lit "summarization") = Raise e ->
  load_hf_pipelines w sfn nfn
  = ([EImportTransformers; EPipeline (lit "summarization");
      EWarning (lit "Could not load Hugging Face pipelines: " ++ exn_str e)],
     Ret (PNone, PNone)).
Proof.
  intros Hs Ht Hp. unfold load_hf_pipelines. rewrite Hs, Ht. simpl.
  by rewrite Hp.
Qed.

(** X8. When the entity pipeline cannot be built after the summarization
    pipeline has been, the summarization pipeline stays bound: only the
    entity pipeline is [None], with one warning. *)
Theorem ner_fault_keeps_summarizer w sfn nfn pipeline p e :
  truthy sfn = false -> truthy nfn = false ->
  transformers w = Ret pipeline ->
  pipeline (lit "summarization") = Ret p ->
  pipeline (lit "ner") = Raise e ->
  load_hf_pipelines w sfn nfn
  = ([EImportTransformers; EPipeline (lit "summarization");
      EPipeline (lit "ner");
      EWarning (lit "Could not load Hugging Face pipelines: " ++ exn_str e)],
     Ret (p, PNone)).
Proof.
  intros Hs Hn Ht Hp Hq. unfold load_hf_pipelines. rewrite Hs, Hn, Ht. simpl.
  rewrite Hp. simpl. by rewrite Hq.
Qed.

(** Past resolution the script has nothing to do with transformers. *)
Lemma after_resolution_no_transformers w ui b :
  quiet is_transformers_event
        (match uploaded ui with
         | Some bytes_data =>
             extracted <- extract_text_from_pdf_bytes w bytes_data (use_ocr ui) ;;
             when (show_raw ui) (emit (ETextArea extracted)) ;;
             when (summarize_clicked ui)
                  (summary <- summarize b extracted ;; emit (EWrite summary)) ;;
             when (entities_clicked ui)
                  (entities <- extract_entities b extracted ;;
                   emit (EWrite entities))
         | None => emit (EInfo (lit "Upload a PDF to start analysis."))
         end).
Proof.
  unfold extract_text_from_pdf_bytes, read_text_pages, ocr_text_of,
    page_step, ocr_step, summarize, extract_entities, py_call.
  quiet.
Qed.

(** X9. When [code/analysis.py] defines both functions, a run of the
    script neither imports transformers nor asks it for a pipeline. *)
Theorem both_functions_skip_transformers w ui names f g :
  candidate_exists w = Ret true -> exec_module w = Ret names ->
  names !! lit "summarize_text" = Some (PFunction f) ->
  names !! lit "extract_entities" = Some (PFunction g) ->
  quiet is_transformers_event (script w ui).
Proof.
  intros He Hm Hf Hg. unfold script. apply quiet_bind.
  - unfold resolve_backends. rewrite (load_repo_functions_ok w names He Hm).
    unfold getattr. rewrite Hf, Hg. unfold load_hf_pipelines. simpl.
    by repeat constructor.
  - intros b. apply after_resolution_no_transformers.
Qed.

(** ** Chunks: how many, and none empty *)

Lemma chunks_short (text : str) :
  0 < length text <= 1000 -> chunks text = [text].
Proof.
  intros [Hlo Hhi]. rewrite chunks_slices.
  replace ((length text + (MAX_CHUNK - 1)) / MAX_CHUNK) with 1.
  - cbn [seq map]. unfold slice.
    replace (0 * MAX_CHUNK + MAX_CHUNK - 0 * MAX_CHUNK) with MAX_CHUNK by lia.
    replace (0 * MAX_CHUNK) with 0 by lia.
    rewrite drop_0, take_ge; [reflexivity | unfold MAX_CHUNK; lia].
  - apply (Nat.div_unique _ _ _ (length text - 1)); unfold MAX_CHUNK; lia.
Qed.

(** X10. A text of [n] characters has [ceil (n / 1000)] chunks, none of
    them empty; a text of 1 to 1000 characters is its own single chunk. *)
Theorem chunks_count_nonempty (text : str) :
  length (chunks text) = (length text + 999) / 1000 /\
  Forall (fun c => c <> []) (chunks text) /\
  (0 < length text <= 1000 -> chunks text = [text]).
Proof.
  pose proof MAX_CHUNK_pos as Hpos.
  pose proof (chunk_count_bounds MAX_CHUNK Hpos (length text)) as [Hup Hlow].
  assert (Hlen : length (chunks text)
                 = (length text + (MAX_CHUNK - 1)) / MAX_CHUNK).
  { by rewrite chunks_slices, !length_map, length_seq. }
  split; [exact Hlen|]. split.
  - apply Forall_lookup. intros i c H. rewrite chunks_slices in H.
    apply (lookup_slices MAX_CHUNK Hpos) in H as [Hi ->].
    intros Hnil. apply (f_equal length) in Hnil.
    rewrite length_take, length_drop in Hnil. cbn [length] in Hnil.
    specialize (Hlow ltac:(lia)).
    assert (i * MAX_CHUNK < length text) by nia.
    unfold MAX_CHUNK in *. lia.
  - apply chunks_short.
Qed.

(** A word. *)
Lemma chunks_count_nonempty_witness :
  0 < length (lit "Lease") <= 1000 /\ chunks (lit "Lease") = [lit "Lease"].
Proof.
  split; [simpl; lia|].
  apply (proj2 (proj2 (chunks_count_nonempty (lit "Lease")))). simpl. lia.
Defined.

(** ** The Summarize action through the pipeline *)

Section PipelineSummarize.

Variables (b : Backends) (hf : str -> result pyobj).
Hypothesis no_repo_function : truthy (summarize_fn b) = false.
Hypothesis pipeline_bound : hf_summarizer b = PFunction hf.

Lemma summarize_pipeline text :
  summarize b text
  = (summaries <- mapM (hf_step hf) (chunks text) ;;
     summary <- pure (py_join (nl ++ nl) summaries) ;;
     ret (PStr summary)).
Proof. unfold summarize. rewrite no_repo_function, pipeline_bound. reflexivity. Qed.

Lemma hf_step_trace c : trace (hf_step hf c) = [ECall HfSummarizer c].
Proof. unfold hf_step. by destruct (hf c). Qed.

Lemma hf_step_outcome c :
  outcome (hf_step hf c)
  = match hf c with Ret out => summary_text out | Raise e => Raise e end.
Proof. unfold hf_step. by destruct (hf c) as [out|e]. Qed.

Lemma hf_steps_trace cs :
  concat (map (fun c => trace (hf_step hf c)) cs) = map (ECall HfSummarizer) cs.
Proof.
  induction cs as [|c cs IH]; [reflexivity|].
  simpl. by rewrite hf_step_trace, IH.
Qed.

Lemma hf_steps_ok cs :
  Forall (fun c => exists out v, hf c = Ret out /\ summary_text out = Ret v) cs ->
  exists vs, Forall2 (fun c v => outcome (hf_step hf c) = Ret v) cs vs.
Proof.
  induction 1 as [|c cs (out & v & Hout & Hv) _ [vs IH]].
  - exists []. constructor.
  - exists (v :: vs). constructor; [|exact IH].
    by rewrite hf_step_outcome, Hout.
Qed.

(** The loop over the chunks stops at the first chunk whose step fails. *)
Lemma summarize_stops text before c after e :
  chunks text = before ++ c :: after ->
  Forall (fun c => exists out v, hf c = Ret out /\ summary_text out = Ret v)
         before ->
  outcome (hf_step hf c) = Raise e ->
  summarize b text = (map (ECall HfSummarizer) (before ++ [c]), Raise e).
Proof.
  intros Hc Hb Hx. destruct (hf_steps_ok before Hb) as [vs Hvs].
  rewrite summarize_pipeline, Hc.
  rewrite (bind_Raise _ _ e);
    rewrite (mapM_raise_trace (hf_step hf) before after c vs e Hvs Hx);
    [|reflexivity].
  simpl. by rewrite hf_steps_trace, hf_step_trace, map_app.
Qed.

End PipelineSummarize.

(** X11. With the pipeline serving Summarize, an empty text is not sent to
    the model at all: there is no chunk, and the summary is the empty
    string. *)
Theorem summarize_empty_text b :
  truthy (summarize_fn b) = false -> truthy (hf_summarizer b) = true ->
  summarize b [] = ([], Ret (PStr [])).
Proof. intros Hs Hh. unfold summarize. by rewrite Hs, Hh. Qed.

(** X12. With the pipeline serving Summarize, a text of 1 to 1000
    characters is sent to the model whole, in one call, and the summary is
    the model's [summary_text] with nothing added. *)
Theorem summarize_short_text b hf text out s :
  truthy (summarize_fn b) = false -> hf_summarizer b = PFunction hf ->
  0 < length text <= 1000 ->
  hf text = Ret out -> summary_text out = Ret (PStr s) ->
  summarize b text = ([ECall HfSummarizer text], Ret (PStr s)).
Proof.
  intros Hs Hh Hlen Hout Htext.
  rewrite (summarize_pipeline b hf Hs Hh), (chunks_short text Hlen).
  unfold hf_step. simpl. rewrite Hout. simpl. by rewrite Htext.
Qed.

(** X13. A fault of the model on a chunk is not caught: Summarize raises
    it, the summaries of the chunks before are lost, and the chunks after
    are never sent. *)
Theorem pipeline_fault_propagates b hf text before c after e :
  truthy (summarize_fn b) = false -> hf_summarizer b = PFunction hf ->
  chunks text = before ++ c :: after ->
  Forall (fun c => exists out v, hf c = Ret out /\ summary_text out = Ret v)
         before ->
  hf c = Raise e ->
  summarize b text = (map (ECall HfSummarizer) (before ++ [c]), Raise e).
Proof.
  intros Hs Hh Hc Hb Hx. apply (summarize_stops b hf Hs Hh text before c after e Hc Hb).
  by rewrite hf_step_outcome, Hx.
Qed.

(** X14. An answer of the model that is not [[{"summary_text": ...}]]
    makes Summarize raise on that chunk: [IndexError] for an empty list,
    [KeyError] for a first element without the key. The chunks after it
    are never sent. *)
Theorem malformed_answer_raises b hf text before c after out e :
  truthy (summarize_fn b) = false -> hf_summarizer b = PFunction hf ->
  chunks text = before ++ c :: after ->
  Forall (fun c => exists out v, hf c = Ret out /\ summary_text out = Ret v)
         before ->
  hf c = Ret out ->
  (out = PList [] /\ e = IndexError "list index out of range" \/
   exists d rest, out = PList (PDict d :: rest) /\
                  d !! lit "summary_text" = None /\
                  e = KeyError (lit "summary_text")) ->
  summarize b text = (map (ECall HfSummarizer) (before ++ [c]), Raise e).
Proof.
  intros Hs Hh Hc Hb Hout Hbad.
  apply (summarize_stops b hf Hs Hh text before c after e Hc Hb).
  rewrite hf_step_outcome, Hout.
  destruct Hbad as [[-> ->]|(d & rest & -> & Hd & ->)]; [reflexivity|].
  unfold summary_text. simpl. by rewrite Hd.
Qed.



(** ** The Extract Entities action *)

(** X16. The entity action never splits the text: it makes at most one
    backend call, and that call is on the whole text. *)
Theorem extract_entities_single_call b text :
  length (trace (extract_entities b text)) <= 1 /\
  Forall (fun ev => exists who, ev = ECall who text)
         (trace (extract_entities b text)).
Proof.
  unfold extract_entities, py_call.
  destruct (truthy (ner_fn b)); [destruct (ner_fn b)|];
    try destruct (truthy (hf_ner b)); try destruct (hf_ner b);
    simpl; split; try lia; repeat constructor; eauto.
Qed.

(** ** A repo name bound to something that is not a function *)


(** ** One run of the script, step by step *)

Lemma resolve_backends_returns w : exists b, outcome (resolve_backends w) = Ret b.
Proof.
  unfold resolve_backends.
  destruct (load_repo_functions_returns w) as [repo Hrepo].
  rewrite (bind_Ret _ _ _ Hrepo). simpl.
  destruct (load_hf_pipelines_returns w (fst repo) (snd repo)) as (hf & Hhf & _).
  rewrite (bind_Ret _ _ _ Hhf). simpl. by eexists.
Qed.

Lemma extract_returns_some w b use_ocr :
  exists s, outcome (extract_text_from_pdf_bytes w b use_ocr) = Ret s.
Proof.
  destruct (returns_total w b use_ocr) as [s Hs]. exists s. by apply extract_sound.
Qed.

Lemma script_upload w ui b bytes_data s :
  outcome (resolve_backends w) = Ret b ->
  uploaded ui = Some bytes_data ->
  outcome (extract_text_from_pdf_bytes w bytes_data (use_ocr ui)) = Ret s ->
  script w ui
  = (trace (resolve_backends w)
     ++ trace (extract_text_from_pdf_bytes w bytes_data (use_ocr ui))
     ++ trace (show_results ui b s),
     outcome (show_results ui b s)).
Proof.
  intros Hb Hu Hs.
  assert (Heq : script w ui
                = bind (resolve_backends w) (fun b =>
                    bind (extract_text_from_pdf_bytes w bytes_data (use_ocr ui))
                         (show_results ui b))).
  { unfold script. by rewrite Hu. }
  rewrite Heq, (bind_Ret _ _ _ Hb). cbn [trace outcome fst snd].
  by rewrite (bind_Ret _ _ _ Hs).
Qed.

Lemma bind_ret_l {A B} (a : A) (k : A -> M B) : bind (ret a) k = k a.
Proof. unfold bind, ret. by destruct (k a). Qed.

Lemma bind_emit {B} ev (k : unit -> M B) :
  bind (emit ev) k = (ev :: trace (k tt), outcome (k tt)).
Proof. unfold bind, emit. by destruct (k tt). Qed.

Lemma M_eta {A} (m : M A) : (trace m, outcome m) = m.
Proof. by destruct m. Qed.

(** The text area, when asked for, comes first and shows the text. *)
Lemma show_results_raw ui b s :
  show_results ui b s
  = (raw_area ui s
     ++ trace (when (summarize_clicked ui)
                    (summary <- summarize b s ;; emit (EWrite summary)) ;;
               when (entities_clicked ui)
                    (entities <- extract_entities b s ;; emit (EWrite entities))),
     outcome (when (summarize_clicked ui)
                   (summary <- summarize b s ;; emit (EWrite summary)) ;;
              when (entities_clicked ui)
                   (entities <- extract_entities b s ;; emit (EWrite entities)))).
Proof.
  unfold show_results, raw_area, when at 1. destruct (show_raw ui).
  - by rewrite bind_emit.
  - rewrite bind_ret_l. symmetry. apply M_eta.
Qed.

(** X18. Without an upload the script resolves the backends, shows its
    hint and stops: nothing is extracted and no action runs, whatever the
    buttons say. *)
Theorem script_without_upload w ui :
  uploaded ui = None ->
  script w ui
  = (trace (resolve_backends w)
     ++ [EInfo (lit "Upload a PDF to start analysis.")],
     Ret tt).
Proof.
  intros Hu. destruct (resolve_backends_returns w) as [b Hb].
  unfold script. rewrite Hu. by rewrite (bind_Ret _ _ _ Hb).
Qed.

Lemma resolve_backends_quiet P w :
  P ECandidateExists = false -> P EExecModule = false ->
  P EImportTransformers = false ->
  (forall task, P (EPipeline task) = false) ->
  (forall msg, P (EWarning msg) = false) ->
  quiet P (resolve_backends w).
Proof.
  intros H1 H2 H3 H4 H5.
  unfold resolve_backends, load_repo_functions, load_hf_pipelines.
  repeat first
    [ apply quiet_ret
    | apply quiet_call; solve [auto]
    | apply quiet_emit; solve [auto]
    | apply quiet_bind; [|intros ?]
    | apply quiet_try_except; [|intros ?]
    | match goal with
      | |- quiet _ (match ?x with _ => _ end) => destruct x
      end ].
Qed.

Lemma extract_quiet_gen P w b use_ocr :
  (forall ev, is_call ev = false -> is_write ev = false ->
              (forall t, ev <> ETextArea t) -> P ev = false) ->
  quiet P (extract_text_from_pdf_bytes w b use_ocr).
Proof.
  intros HP.
  unfold extract_text_from_pdf_bytes, read_text_pages, ocr_text_of,
    page_step, ocr_step.
  repeat first
    [ apply quiet_ret
    | apply quiet_call; apply HP; solve [reflexivity | discriminate]
    | apply quiet_mapM; intros ?
    | apply quiet_bind; [|intros ?]
    | apply quiet_try_except; [|intros ?]
    | match goal with
      | |- quiet _ (match ?x with _ => _ end) => destruct x
      end ].
Qed.


(** X20. With neither [code/analysis.py] nor transformers, a run with
    both buttons pressed completes: after one warning about the pipelines
    and the extraction, it writes the "No summarization backend available"
    message and then the "No NER backend available" message. *)
Theorem script_without_backends w ui bytes_data e :
  candidate_exists w = Ret false -> transformers w = Raise e ->
  uploaded ui = Some bytes_data ->
  summarize_clicked ui = true -> entities_clicked ui = true ->
  exists s,
    outcome (extract_text_from_pdf_bytes w bytes_data (use_ocr ui)) = Ret s /\
    script w ui
    = ([ECandidateExists; EImportTransformers;
        EWarning (lit "Could not load Hugging Face pipelines: " ++ exn_str e)]
       ++ trace (extract_text_from_pdf_bytes w bytes_data (use_ocr ui))
       ++ raw_area ui s
       ++ [EWrite (PStr msg_no_summarizer); EWrite (PStr msg_no_ner)],
       Ret tt).
Proof.
  intros He Ht Hu Hs Hn.
  destruct (extract_returns_some w bytes_data (use_ocr ui)) as [s Hx].
  exists s. split; [exact Hx|].
  assert (Hres : resolve_backends w
                 = ([ECandidateExists; EImportTransformers;
                     EWarning (lit "Could not load Hugging Face pipelines: "
                               ++ exn_str e)],
                    Ret {| summarize_fn := PNone; ner_fn := PNone;
                           hf_summarizer := PNone; hf_ner := PNone |})).
  { unfold resolve_backends, load_repo_functions, load_hf_pipelines.
    rewrite He. simpl. by rewrite Ht. }
  rewrite (script_upload w ui _ bytes_data s (f_equal snd Hres) Hu Hx).
  rewrite show_results_raw, Hs, Hn, Hres.
  unfold when, summarize, extract_entities.
  cbn [truthy summarize_fn ner_fn hf_summarizer hf_ner].
  rewrite !bind_ret_l, !bind_emit. cbn [trace outcome fst snd emit].
  rewrite ?bind_ret_l, ?bind_emit. reflexivity.
Qed.

Lemma quiet_mapM_In {A B} P (f : A -> M B) l :
  (forall x, In x l -> quiet P (f x)) -> quiet P (mapM f l).
Proof.
  induction l as [|x l IH]; intros Hf; simpl; [apply quiet_ret|].
  apply quiet_bind; [apply Hf; by left|]. intros y.
  apply quiet_bind; [|intros ys; apply quiet_ret].
  apply IH. intros z Hz. apply Hf. by right.
Qed.

Lemma summarize_feeds b s :
  quiet (fun ev => negb (feeds s ev)) (summarize b s).
Proof.
  unfold summarize.
  destruct (truthy (summarize_fn b)).
  - unfold py_call. destruct (summarize_fn b); try apply quiet_raise.
    apply quiet_call. simpl. by rewrite bool_decide_eq_true_2.
  - destruct (truthy (hf_summarizer b)); [|apply quiet_ret].
    apply quiet_bind; [|intros ?; quiet].
    apply quiet_mapM_In. intros c Hc.
    apply quiet_bind; [|intros ?; apply quiet_pure].
    unfold py_call. destruct (hf_summarizer b); try apply quiet_raise.
    apply quiet_call. simpl. rewrite bool_decide_eq_true_2; [reflexivity|].
    by apply list_elem_of_In.
Qed.

Lemma extract_entities_feeds b s :
  quiet (fun ev => negb (feeds s ev)) (extract_entities b s).
Proof.
  unfold extract_entities, py_call.
  destruct (truthy (ner_fn b)); [destruct (ner_fn b)|];
    try destruct (truthy (hf_ner b)); try destruct (hf_ner b);
    try apply quiet_raise; try apply quiet_ret;
    apply quiet_call; simpl; by rewrite bool_decide_eq_true_2.
Qed.

(** X21. In a run with an upload, every text handed on is what the
    extractor returned for it: the raw text area shows that string, the
    repo functions and the entity pipeline are called on it, and the
    summarization pipeline on its chunks. That string may be one of the
    extractor's messages. *)
Theorem script_feeds_extracted_text w ui bytes_data :
  uploaded ui = Some bytes_data ->
  exists s,
    outcome (extract_text_from_pdf_bytes w bytes_data (use_ocr ui)) = Ret s /\
    Forall (fun ev => feeds s ev = true) (trace (script w ui)).
Proof.
  intros Hu.
  destruct (extract_returns_some w bytes_data (use_ocr ui)) as [s Hx].
  destruct (resolve_backends_returns w) as [b Hb].
  exists s. split; [exact Hx|].
  assert (Hq : quiet (fun ev => negb (feeds s ev)) (script w ui)).
  { unfold quiet.
    rewrite (script_upload w ui b bytes_data s Hb Hu Hx). simpl.
    apply Forall_app. split; [by apply resolve_backends_quiet|].
    apply Forall_app. split.
    - apply (extract_quiet_gen (fun ev => negb (feeds s ev))).
      intros ev H1 H2 H3. destruct ev; try reflexivity; try discriminate.
      by destruct (H3 text).
    - unfold show_results, when.
      destruct (show_raw ui), (summarize_clicked ui), (entities_clicked ui);
        repeat first
          [ apply quiet_ret
          | apply summarize_feeds | apply extract_entities_feeds
          | apply quiet_emit; simpl; by rewrite ?bool_decide_eq_true_2
          | apply quiet_bind; [|intros ?] ]. }
  unfold quiet in Hq. eapply Forall_impl; [exact Hq|].
  intros ev H. by apply negb_false_iff in H.
Qed.

(** X22. A fault of the Summarize action ends the run: the script raises
    it, no summary is written, and the entity action does not start even
    when its button is pressed. *)
Theorem summarize_fault_ends_run w ui b bytes_data s e :
  uploaded ui = Some bytes_data -> summarize_clicked ui = true ->
  outcome (resolve_backends w) = Ret b ->
  outcome (extract_text_from_pdf_bytes w bytes_data (use_ocr ui)) = Ret s ->
  outcome (summarize b s) = Raise e ->
  script w ui
  = (trace (resolve_backends w)
     ++ trace (extract_text_from_pdf_bytes w bytes_data (use_ocr ui))
     ++ raw_area ui s ++ trace (summarize b s),
     Raise e).
Proof.
  intros Hu Hc Hb Hx Hs.
  rewrite (script_upload w ui b bytes_data s Hb Hu Hx), show_results_raw, Hc.
  cbn [when].
  rewrite (bind_Raise (bind (summarize b s) _) _ e);
    rewrite (bind_Raise (summarize b s) _ e Hs); reflexivity.
Qed.

(** X23. When both buttons are pressed and both actions return, the
    script writes the summary as soon as Summarize has returned, runs the
    entity action after that, writes the entities last, and completes. *)
Theorem both_actions_in_order w ui b bytes_data s summary entities :
  uploaded ui = Some bytes_data ->
  summarize_clicked ui = true -> entities_clicked ui = true ->
  outcome (resolve_backends w) = Ret b ->
  outcome (extract_text_from_pdf_bytes w bytes_data (use_ocr ui)) = Ret s ->
  outcome (summarize b s) = Ret summary ->
  outcome (extract_entities b s) = Ret entities ->
  script w ui
  = (trace (resolve_backends w)
     ++ trace (extract_text_from_pdf_bytes w bytes_data (use_ocr ui))
     ++ raw_area ui s
     ++ trace (summarize b s) ++ [EWrite summary]
     ++ trace (extract_entities b s) ++ [EWrite entities],
     Ret tt).
Proof.
  intros Hu Hc Hn Hb Hx Hs He.
  rewrite (script_upload w ui b bytes_data s Hb Hu Hx), show_results_raw, Hc, Hn.
  cbn [when].
  rewrite (bind_Ret (summarize b s) _ summary Hs).
  rewrite (bind_Ret (extract_entities b s) _ entities He).
  cbn [trace outcome fst snd emit bind app].
  by rewrite <- !app_assoc.
Qed.

(** X24. Summarize runs on whatever string the extractor returned: with a
    repo function bound, that function is called on it, also when the
    string is one of the extractor's messages and not a text of the
    document. *)
Theorem summarize_runs_on_extractor_result w ui b f bytes_data s :
  uploaded ui = Some bytes_data -> summarize_clicked ui = true ->
  outcome (resolve_backends w) = Ret b -> summarize_fn b = PFunction f ->
  outcome (extract_text_from_pdf_bytes w bytes_data (use_ocr ui)) = Ret s ->
  In (ECall LocalSummarize s) (trace (script w ui)).
Proof.
  intros Hu Hc Hb Hf Hx.
  rewrite (script_upload w ui b bytes_data s Hb Hu Hx), show_results_raw, Hc.
  cbn [trace fst when]. rewrite !in_app_iff. do 3 right.
  rewrite (summarize_local b f s Hf).
  destruct (f s) as [v|e]; simpl.
  - destruct (when _ _) as [t r]. simpl. by left.
  - by left.
Qed.

(** ** Sample runs for the further properties *)

Section FurtherWitnesses.

Import Samples.

(** A [code/analysis.py] with a syntax error. *)
Lemma load_repo_functions_fallback_witness :
  load_repo_functions
    (with_analysis (Some (Raise (Exception "SyntaxError" (lit "invalid syntax"))))
                   (Ret hf_pipeline) [])
  = ([ECandidateExists; EExecModule;
      EWarning (lit "Could not import analysis functions: invalid syntax")],
     Ret (PNone, PNone)).
Proof.
  apply (proj2 (load_repo_functions_fallback
                  (with_analysis
                     (Some (Raise (Exception "SyntaxError" (lit "invalid syntax"))))
                     (Ret hf_pipeline) []))
           (Exception "SyntaxError" (lit "invalid syntax")));
    reflexivity.
Defined.

(** No repo function, and a summarization model that does not load. *)
Lemma summarizer_fault_disables_ner_witness :
  load_hf_pipelines (with_analysis None (Ret no_summarization_model) [])
                    PNone PNone
  = ([EImportTransformers; EPipeline (lit "summarization");
      EWarning (lit "Could not load Hugging Face pipelines: model not found")],
     Ret (PNone, PNone)).
Proof.
  apply (summarizer_fault_disables_ner
           (with_analysis None (Ret no_summarization_model) []) PNone PNone
           no_summarization_model
           (Exception "OSError" (lit "model not found")));
    reflexivity.
Defined.

(** No repo function, and an entity model that does not load. *)
Lemma ner_fault_keeps_summarizer_witness :
  load_hf_pipelines (with_analysis None (Ret no_ner_model) []) PNone PNone
  = ([EImportTransformers; EPipeline (lit "summarization");
      EPipeline (lit "ner");
      EWarning (lit "Could not load Hugging Face pipelines: model not found")],
     Ret (PFunction summarizer_model, PNone)).
Proof.
  apply (ner_fault_keeps_summarizer
           (with_analysis None (Ret no_ner_model) []) PNone PNone
           no_ner_model (PFunction summarizer_model)
           (Exception "OSError" (lit "model not found")));
    reflexivity.
Defined.

(** Both repo functions, transformers installed, both buttons pressed. *)
Lemma both_functions_skip_transformers_witness :
  quiet is_transformers_event
        (script (with_backends both_functions [Some (lit "Lease")])
                (pressed (Some some_pdf) true true)).
Proof.
  apply (both_functions_skip_transformers
           (with_backends both_functions [Some (lit "Lease")])
           (pressed (Some some_pdf) true true)
           both_functions repo_summarize repo_entities);
    reflexivity.
Defined.

(** Only the pipeline, and nothing extracted. *)
Lemma summarize_empty_text_witness :
  summarize (only_summarizer summarizer_model) [] = ([], Ret (PStr [])).
Proof.
  apply (summarize_empty_text (only_summarizer summarizer_model)); reflexivity.
Defined.

Lemma summarizer_model_answers c :
  exists out v, summarizer_model c = Ret out /\ summary_text out = Ret v.
Proof.
  eexists _, _. split; [reflexivity|].
  unfold summary_text. simpl. by rewrite lookup_singleton_eq.
Defined.

(** Two words. *)
Lemma summarize_short_text_witness :
  summarize (only_summarizer summarizer_model) (lit "Lease agreement")
  = ([ECall HfSummarizer (lit "Lease agreement")], Ret (PStr (lit "Lea"))).
Proof.
  apply (summarize_short_text (only_summarizer summarizer_model)
           summarizer_model (lit "Lease agreement")
           (PList [PDict {[ lit "summary_text" := PStr (lit "Lea") ]}])
           (lit "Lea")).
  - reflexivity.
  - reflexivity.
  - simpl. lia.
  - reflexivity.
  - unfold summary_text. simpl. by rewrite lookup_singleton_eq.
Defined.

(** The model fails on the second of three chunks. *)
Lemma pipeline_fault_propagates_witness :
  summarize (only_summarizer picky_model) long_text
  = ([ECall HfSummarizer (repeat 97%N 1000);
      ECall HfSummarizer (repeat 98%N 1000)],
     Raise (Exception "RuntimeError" (lit "out of memory"))).
Proof.
  apply (pipeline_fault_propagates (only_summarizer picky_model) picky_model
           long_text [repeat 97%N 1000] (repeat 98%N 1000) [repeat 99%N 500]
           (Exception "RuntimeError" (lit "out of memory"))).
  - reflexivity.
  - reflexivity.
  - vm_compute. reflexivity.
  - constructor; [|constructor]. apply (summarizer_model_answers (repeat 97%N 1000)).
  - reflexivity.
Defined.

(** The model answers a short text with an empty list. *)
Lemma malformed_answer_raises_witness :
  summarize (only_summarizer mute_model) (lit "Lease")
  = ([ECall HfSummarizer (lit "Lease")],
     Raise (IndexError "list index out of range")).
Proof.
  apply (malformed_answer_raises (only_summarizer mute_model) mute_model
           (lit "Lease") [] (lit "Lease") [] (PList [])
           (IndexError "list index out of range")).
  - reflexivity.
  - reflexivity.
  - vm_compute. reflexivity.
  - constructor.
  - reflexivity.
  - left. by split.
Defined.



End FurtherWitnesses.

Section ScriptWitnesses.

Import Samples.

(** The page as it first opens. *)
Lemma script_without_upload_witness :
  script (installed [] []) (pressed None true true)
  = ([ECandidateExists; EImportTransformers;
      EWarning (lit "Could not load Hugging Face pipelines: "
                ++ lit "No module named 'transformers'");
      EInfo (lit "Upload a PDF to start analysis.")],
     Ret tt).
Proof.
  apply (script_without_upload (installed [] []) (pressed None true true)).
  reflexivity.
Defined.


(** An upload and both buttons, with nothing to analyse it. *)
Lemma script_without_backends_witness :
  exists s,
    outcome (extract_text_from_pdf_bytes (installed [Some (lit "Lease")] [])
                                         some_pdf false) = Ret s /\
    script (installed [Some (lit "Lease")] [])
           (pressed (Some some_pdf) true true)
    = ([ECandidateExists; EImportTransformers;
        EWarning (lit "Could not load Hugging Face pipelines: "
                  ++ lit "No module named 'transformers'")]
       ++ [EPdfReader some_pdf; EPages; EExtractText]
       ++ raw_area (pressed (Some some_pdf) true true) s
       ++ [EWrite (PStr msg_no_summarizer); EWrite (PStr msg_no_ner)],
       Ret tt).
Proof.
  apply (script_without_backends (installed [Some (lit "Lease")] [])
           (pressed (Some some_pdf) true true) some_pdf
           (Exception "ModuleNotFoundError" (lit "No module named 'transformers'")));
    reflexivity.
Defined.

(** An upload with the pipelines, both buttons pressed. *)
Lemma script_feeds_extracted_text_witness :
  exists s,
    outcome (extract_text_from_pdf_bytes
               (with_analysis None (Ret hf_pipeline) [Some (lit "Lease")])
               some_pdf false) = Ret s /\
    Forall (fun ev => feeds s ev = true)
           (trace (script (with_analysis None (Ret hf_pipeline)
                                         [Some (lit "Lease")])
                          (pressed (Some some_pdf) true true))).
Proof.
  apply (script_feeds_extracted_text
           (with_analysis None (Ret hf_pipeline) [Some (lit "Lease")])
           (pressed (Some some_pdf) true true) some_pdf).
  reflexivity.
Defined.

(** A document that starts with "b", which the model cannot take. *)
Lemma summarize_fault_ends_run_witness :
  let w := with_analysis None (Ret (fun _ => Ret (PFunction picky_model)))
                         [Some (lit "by and between")] in
  script w (pressed (Some some_pdf) true true)
  = ([ECandidateExists; EImportTransformers;
      EPipeline (lit "summarization"); EPipeline (lit "ner");
      EPdfReader some_pdf; EPages; EExtractText;
      ETextArea (lit "by and between");
      ECall HfSummarizer (lit "by and between")],
     Raise (Exception "RuntimeError" (lit "out of memory"))).
Proof.
  intros w.
  rewrite (summarize_fault_ends_run w (pressed (Some some_pdf) true true)
             {| summarize_fn := PNone; ner_fn := PNone;
                hf_summarizer := PFunction picky_model;
                hf_ner := PFunction picky_model |}
             some_pdf (lit "by and between")
             (Exception "RuntimeError" (lit "out of memory"))
             eq_refl eq_refl eq_refl eq_refl eq_refl).
  reflexivity.
Defined.

(** Both repo functions, both buttons. *)
Lemma both_actions_in_order_witness :
  let w := with_backends both_functions [Some (lit "Lease agreement, 2024")] in
  script w (pressed (Some some_pdf) true true)
  = ([ECandidateExists; EExecModule;
      EPdfReader some_pdf; EPages; EExtractText;
      ETextArea (lit "Lease agreement, 2024");
      ECall LocalSummarize (lit "Lease agreement, 2024");
      EWrite (PStr (lit "Lease agreem"));
      ECall LocalNer (lit "Lease agreement, 2024");
      EWrite (PList [PDict {[ lit "text" := PStr (lit "Lease");
                              lit "type" := PStr (lit "MISC") ]}])],
     Ret tt).
Proof.
  intros w.
  rewrite (both_actions_in_order w (pressed (Some some_pdf) true true)
             {| summarize_fn := PFunction repo_summarize;
                ner_fn := PFunction repo_entities;
                hf_summarizer := PNone; hf_ner := PNone |}
             some_pdf (lit "Lease agreement, 2024")
             (PStr (lit "Lease agreem"))
             (PList [PDict {[ lit "text" := PStr (lit "Lease");
                              lit "type" := PStr (lit "MISC") ]}])
             eq_refl eq_refl eq_refl eq_refl eq_refl eq_refl eq_refl).
  reflexivity.
Defined.

(** Both repo functions, and no PyPDF2: the message is summarized. *)
Lemma summarize_runs_on_extractor_result_witness :
  let w := without_pypdf2 (with_backends both_functions []) in
  In (ECall LocalSummarize
            (lit "PyPDF2 not installed. Install with: pip install PyPDF2"))
     (trace (script w (pressed (Some some_pdf) true false))).
Proof.
  intros w.
  apply (summarize_runs_on_extractor_result w
           (pressed (Some some_pdf) true false)
           {| summarize_fn := PFunction repo_summarize;
              ner_fn := PFunction repo_entities;
              hf_summarizer := PNone; hf_ner := PNone |}
           repo_summarize some_pdf);
    reflexivity.
Defined.

End ScriptWitnesses.
